(** * expo-keycloak-client: token lifecycle and authenticated-request retry

    A shallow embedding of the TypeScript sources
    - [auth-token.service.ts] (class [AuthTokenService]),
    - [auth.service.ts] (class [AuthService]),
    - [auth-rest.service.ts] (class [AuthRestService]),
    - [auth.provider.tsx] (the [logout] callback of [AuthProvider]),
    in a state-and-exception monad.  Promises are sequentialised: an
    [await]ed call either returns a value or throws, and threads the world. *)

From Stdlib Require Import ZArith NArith Lia.
From stdpp Require Import base strings gmap pretty.

Local Open Scope string_scope.
Set Warnings "-register-all".

(** ** JavaScript values

    [response.json()] yields an arbitrary JSON value; the TypeScript
    annotation [AccessTokenRequestResponse] on it is erased at run time, so
    the embedding keeps the value untyped. *)
Inductive JsValue : Type :=
  | JsUndefined
  | JsNull
  | JsBool (b : bool)
  | JsNumber (n : Z)
  | JsString (s : string)
  | JsArray (items : list JsValue)
  | JsObject (props : list (string * JsValue)).

Fixpoint assoc (k : string) (props : list (string * JsValue)) : option JsValue :=
  match props with
  | [] => None
  | (k', v) :: rest => if String.eqb k k' then Some v else assoc k rest
  end.

(** ** HTTP data *)

(** The [Response] of the Fetch API, as far as the sources read it:
    [status], [statusText], [text()] and [json()] ([None]: the body is not
    JSON and [json()] rejects). *)
Record HttpResponse : Type := {
  status : N;
  statusText : string;
  body_text : string;
  body_json : option JsValue
}.

(** [Response.ok]: the status is in the range 200-299. *)
Definition ok (r : HttpResponse) : bool :=
  (200 <=? status r)%N && (status r <=? 299)%N.

Inductive Body : Type :=
  | NoBody
  | FormBody (entries : list (string * string))   (* URLSearchParams *)
  | DataBody (d : JsValue).

Record NetRequest : Type := {
  req_method : string;
  req_url : string;
  req_headers : gmap string string;
  req_body : Body
}.

(** An Axios request config; [_retry] is the custom flag the response
    interceptor sets on the config of a request it replays. *)
Record AxiosRequestConfig : Type := {
  url : string;
  method : string;
  headers : gmap string string;
  data : JsValue;
  _retry : bool
}.

Definition set_retry (c : AxiosRequestConfig) (b : bool) : AxiosRequestConfig :=
  {| url := url c; method := method c; headers := headers c;
     data := data c; _retry := b |}.

Definition set_header (c : AxiosRequestConfig) (k v : string) : AxiosRequestConfig :=
  {| url := url c; method := method c; headers := <[k := v]> (headers c);
     data := data c; _retry := _retry c |}.

Inductive NetEvent : Type :=
  | EvFetch (req : NetRequest)
  | EvAxios (config : AxiosRequestConfig).

(** ** Configuration records ([auth-types.ts], expo-auth-session) *)

Record KeycloakClientConfig : Type := {
  clientId : string;
  issuer : string;
  scopes : list string;
  signInRedirectUri : string
}.

(** Both endpoints are optional fields of a [DiscoveryDocument]. *)
Record DiscoveryDocument : Type := {
  tokenEndpoint : option string;
  endSessionEndpoint : option string
}.

(** What [retrieveTokens] returns when it does not return [null]. *)
Record TokenSet : Type := {
  accessToken : option string;
  refreshToken : option string;
  idToken : option string
}.

(** ** Exceptions *)

Inductive StoreOp : Type :=
  | OpGet (key : string)
  | OpSet (key value : string)
  | OpDelete (key : string).

Inductive Exn : Type :=
  | Error (message : string)                 (* new Error(message) *)
  | TypeError (message : string)             (* property read on null/undefined *)
  | SyntaxError                              (* json() on a body that is not JSON *)
  | SecureStoreError (op : StoreOp)          (* a SecureStore promise rejected *)
  | NetworkError (req : NetRequest)          (* fetch rejected *)
  | AxiosError (config : AxiosRequestConfig) (response : option HttpResponse).

(** ** The world *)

Record World : Type := {
  (* expo-secure-store: the key-value store and the number of operations
     attempted on it so far *)
  secure_store : gmap string string;
  store_ops : nat;
  (* every request that left the device, oldest first *)
  net_log : list NetEvent;
  (* ghost: number of invocations of AuthTokenService.refreshTokens *)
  refresh_calls : nat;
  (* the AuthTokenService singleton *)
  _tokenEndpoint : option string;
  _clientId : option string;
  (* the AuthService singleton *)
  _discovery : option DiscoveryDocument;
  _config : option KeycloakClientConfig;
  (* React state of AuthProvider *)
  isAuthenticated : bool
}.

(** The environment outside the repository: whether the [n]-th operation on
    the secure store rejects, and what the network answers to the [n]-th
    request ([None]: no response, the transport failed). *)
Record Env : Type := {
  store_fault : nat -> StoreOp -> bool;
  network : nat -> NetRequest -> option HttpResponse
}.

(** One more operation was attempted on the store, which now holds [s]. *)
Definition with_store (w : World) (s : gmap string string) : World :=
  {| secure_store := s; store_ops := S (store_ops w); net_log := net_log w;
     refresh_calls := refresh_calls w;
     _tokenEndpoint := _tokenEndpoint w; _clientId := _clientId w;
     _discovery := _discovery w; _config := _config w;
     isAuthenticated := isAuthenticated w |}.

(** One more request left the device. *)
Definition with_net (w : World) (ev : NetEvent) : World :=
  {| secure_store := secure_store w; store_ops := store_ops w;
     net_log := net_log w ++ [ev];
     refresh_calls := refresh_calls w;
     _tokenEndpoint := _tokenEndpoint w; _clientId := _clientId w;
     _discovery := _discovery w; _config := _config w;
     isAuthenticated := isAuthenticated w |}.

Definition with_refresh_call (w : World) : World :=
  {| secure_store := secure_store w; store_ops := store_ops w;
     net_log := net_log w;
     refresh_calls := S (refresh_calls w);
     _tokenEndpoint := _tokenEndpoint w; _clientId := _clientId w;
     _discovery := _discovery w; _config := _config w;
     isAuthenticated := isAuthenticated w |}.

Definition with_token_service (w : World) (ep cid : option string) : World :=
  {| secure_store := secure_store w; store_ops := store_ops w;
     net_log := net_log w;
     refresh_calls := refresh_calls w;
     _tokenEndpoint := ep; _clientId := cid;
     _discovery := _discovery w; _config := _config w;
     isAuthenticated := isAuthenticated w |}.

Definition with_auth_service (w : World) (d : option DiscoveryDocument)
    (c : option KeycloakClientConfig) : World :=
  {| secure_store := secure_store w; store_ops := store_ops w;
     net_log := net_log w;
     refresh_calls := refresh_calls w;
     _tokenEndpoint := _tokenEndpoint w; _clientId := _clientId w;
     _discovery := d; _config := c;
     isAuthenticated := isAuthenticated w |}.

Definition with_isAuthenticated (w : World) (b : bool) : World :=
  {| secure_store := secure_store w; store_ops := store_ops w;
     net_log := net_log w;
     refresh_calls := refresh_calls w;
     _tokenEndpoint := _tokenEndpoint w; _clientId := _clientId w;
     _discovery := _discovery w; _config := _config w;
     isAuthenticated := b |}.

(** ** The monad of asynchronous code: state plus exceptions *)

Definition Result (A : Type) : Type := (Exn + A)%type.

Definition M (A : Type) : Type := World -> Result A * World.

Definition ret {A} (a : A) : M A := fun w => (inr a, w).

Definition throw {A} (e : Exn) : M A := fun w => (inl e, w).

Definition bind {A B} (m : M A) (k : A -> M B) : M B := fun w =>
  match m w with
  | (inr a, w') => k a w'
  | (inl e, w') => (inl e, w')
  end.

(** [try { m } catch (e) { h e }] *)
Definition try_catch {A} (m : M A) (h : Exn -> M A) : M A := fun w =>
  match m w with
  | (inr a, w') => (inr a, w')
  | (inl e, w') => h e w'
  end.

Notation "x <- m ;; k" := (bind m (fun x => k))
  (at level 100, m at next level, right associativity).
Notation "m ;;; k" := (bind m (fun _ => k))
  (at level 100, right associativity).

(** ** JavaScript helpers *)

(** Truthiness of [s : string | null | undefined]: [null], [undefined] and
    the empty string are falsy, and [if (!s) throw ...] narrows a truthy [s]
    to its string. *)
Definition truthy (s : option string) : option string :=
  match s with
  | Some s => if bool_decide (s = "") then None else Some s
  | None => None
  end.

(** A template literal [`${s}`] on an optional string. *)
Definition template (s : option string) : string :=
  match s with
  | Some s => s
  | None => "undefined"
  end.

(** Reading [v.k]: it throws a [TypeError] on [null] and [undefined], finds
    own properties of an object, and is [undefined] otherwise. *)
Definition get_prop (v : JsValue) (k : string) : M JsValue :=
  match v with
  | JsUndefined | JsNull =>
      throw (TypeError ("Cannot read properties of null or undefined, reading " +:+ k))
  | JsObject props => ret (default JsUndefined (assoc k props))
  | _ => ret JsUndefined
  end.

(** Modelled from the spec: [isDef] of [./utils] is not among the sources.
    The spec reads every [!isDef(x)] test of the sources as "[x] is absent"
    (the retrieval failed, discovery or config were never set), so [isDef x]
    holds when [x] is neither [null] nor [undefined]. *)
Definition isDef {A} (o : option A) : bool :=
  match o with
  | Some _ => true
  | None => false
  end.

(** Reading a property of an object that may be [null]: [o.p] throws on
    [null]. *)
Definition null_read (name : string) : Exn :=
  TypeError ("Cannot read properties of null, reading " +:+ name).

(** [isDef] on a JavaScript value (modelled as [isDef] above). *)
Definition isDefJs (v : JsValue) : bool :=
  match v with
  | JsUndefined | JsNull => false
  | _ => true
  end.

(** [jwtDecode(token)] of the jwt-decode package, given what it decodes
    ([None]: it throws its [InvalidTokenError]). *)
Definition jwt_decode (jwtDecode : string -> option JsValue) (token : string) : M JsValue :=
  match jwtDecode token with
  | Some claims => ret claims
  | None => throw (Error "Invalid token specified")
  end.

(** ** expo-secure-store

    The store keeps strings under string keys.  Every operation may reject,
    as the environment decides; [setItemAsync] refuses a value that is not a
    string before it touches the store. *)
Module SecureStore.
Section WithEnv.
Variable env : Env.

Definition attempt {A} (op : StoreOp) (done : World -> Result A * World) : M A :=
  fun w =>
    if store_fault env (store_ops w) op
    then (inl (SecureStoreError op), with_store w (secure_store w))
    else done w.

Definition getItemAsync (key : string) : M (option string) :=
  attempt (OpGet key)
    (fun w => (inr (secure_store w !! key), with_store w (secure_store w))).

Definition setItemAsync (key : string) (value : JsValue) : M unit :=
  match value with
  | JsString s =>
      attempt (OpSet key s)
        (fun w => (inr tt, with_store w (<[key := s]> (secure_store w))))
  | _ => throw (Error "Invalid value provided to SecureStore. Values must be strings")
  end.

Definition deleteItemAsync (key : string) : M unit :=
  attempt (OpDelete key)
    (fun w => (inr tt, with_store w (delete key (secure_store w)))).
End WithEnv.
End SecureStore.

(** ** fetch *)
Section Fetch.
Variable env : Env.

Definition fetch (req : NetRequest) : M HttpResponse := fun w =>
  match network env (length (net_log w)) req with
  | Some r => (inr r, with_net w (EvFetch req))
  | None => (inl (NetworkError req), with_net w (EvFetch req))
  end.

(** [await response.json()] *)
Definition json (r : HttpResponse) : M JsValue :=
  match body_json r with
  | Some v => ret v
  | None => throw SyntaxError
  end.

(** [await response.text()] *)
Definition text (r : HttpResponse) : M string := ret (body_text r).
End Fetch.

Definition form_headers : gmap string string :=
  {[ "Content-Type" := "application/x-www-form-urlencoded" ]}.

Definition post_form (endpoint : string) (entries : list (string * string)) : NetRequest :=
  {| req_method := "POST"; req_url := endpoint; req_headers := form_headers;
     req_body := FormBody entries |}.

(** ** auth-token.service.ts *)
Module TOKEN_STORAGE_KEY.
Definition ACCESS_TOKEN : string := "accessToken".
Definition REFRESH_TOKEN : string := "refreshToken".
Definition ID_TOKEN : string := "idToken".
End TOKEN_STORAGE_KEY.

Module AuthTokenService.
Section WithEnv.
Variable env : Env.

Definition init (tokenEndpoint clientId : string) : M unit := fun w =>
  (inr tt, with_token_service w (Some tokenEndpoint) (Some clientId)).

Definition storeTokens (accessTokenRequestResponse : JsValue) : M unit :=
  access_token <- get_prop accessTokenRequestResponse "access_token" ;;
  SecureStore.setItemAsync env TOKEN_STORAGE_KEY.ACCESS_TOKEN access_token ;;;
  refresh_token <- get_prop accessTokenRequestResponse "refresh_token" ;;
  SecureStore.setItemAsync env TOKEN_STORAGE_KEY.REFRESH_TOKEN refresh_token ;;;
  id_token <- get_prop accessTokenRequestResponse "id_token" ;;
  SecureStore.setItemAsync env TOKEN_STORAGE_KEY.ID_TOKEN id_token.

Definition removeTokens : M unit :=
  SecureStore.deleteItemAsync env TOKEN_STORAGE_KEY.ACCESS_TOKEN ;;;
  SecureStore.deleteItemAsync env TOKEN_STORAGE_KEY.REFRESH_TOKEN ;;;
  SecureStore.deleteItemAsync env TOKEN_STORAGE_KEY.ID_TOKEN.

Definition retrieveTokens : M (option TokenSet) :=
  try_catch
    (accessToken <- SecureStore.getItemAsync env TOKEN_STORAGE_KEY.ACCESS_TOKEN ;;
     refreshToken <- SecureStore.getItemAsync env TOKEN_STORAGE_KEY.REFRESH_TOKEN ;;
     idToken <- SecureStore.getItemAsync env TOKEN_STORAGE_KEY.ID_TOKEN ;;
     ret (Some {| accessToken := accessToken; refreshToken := refreshToken;
                  idToken := idToken |}))
    (fun e => (* console.error(e) *) ret None).

(** [tokens?.accessToken ?? null] *)
Definition getAccessToken : M (option string) :=
  tokens <- retrieveTokens ;;
  ret (match tokens with
       | Some t => accessToken t
       | None => None
       end).

Definition refresh_request (endpoint clientId refreshToken : string) : NetRequest :=
  post_form endpoint
    [("grant_type", "refresh_token"); ("client_id", clientId);
     ("refresh_token", refreshToken)].

Definition refresh_failed_message (r : HttpResponse) (body : string) : string :=
  "Failed to refresh tokens: " +:+ pretty (status r) +:+ ": " +:+
  statusText r +:+ " " +:+ body.

Definition refreshTokens : M JsValue :=
  (fun w => (inr tt, with_refresh_call w)) ;;;    (* ghost: count the call *)
  tokens <- retrieveTokens ;;
  if negb (isDef tokens) then throw (Error "No tokens found") else
  match truthy (tokens ≫= refreshToken) with     (* tokens?.refreshToken *)
  | None => throw (Error "No refresh token found")
  | Some refreshToken => fun w =>
  match truthy (_clientId w) with
  | None => throw (Error "No client ID found") w
  | Some clientId =>
  match truthy (_tokenEndpoint w) with
  | None => throw (Error "No token endpoint found") w
  | Some tokenEndpoint =>
      (response <- fetch env (refresh_request tokenEndpoint clientId refreshToken) ;;
       if ok response then
         tokenResponse <- json response ;;
         storeTokens tokenResponse ;;;
         ret tokenResponse
       else
         removeTokens ;;;
         body <- text response ;;
         throw (Error (refresh_failed_message response body))) w
  end end end.

(** What the jwt-decode package makes of a token. *)
Variable jwtDecode : string -> option JsValue.

Definition decodeAccessToken : M JsValue :=
  tokens <- retrieveTokens ;;
  if negb (isDef tokens) || negb (isDef (tokens ≫= accessToken)) then ret JsNull
  else
    try_catch
      (match tokens ≫= accessToken with
       | Some accessToken => jwt_decode jwtDecode accessToken
       | None => throw (null_read "accessToken")
       end)
      (fun e => (* console.error(e) *) ret JsNull).
End WithEnv.
End AuthTokenService.

(** ** auth.service.ts *)
Module AuthService.
Section WithEnv.
Variable env : Env.

Definition init (discovery : DiscoveryDocument) (config : KeycloakClientConfig)
    : M unit := fun w =>
  (inr tt, with_auth_service w (Some discovery) (Some config)).

Definition exchange_request (discovery : DiscoveryDocument)
    (config : KeycloakClientConfig) (authorizationCode codeVerifier : string)
    : NetRequest :=
  post_form (template (tokenEndpoint discovery))
    [("grant_type", "authorization_code"); ("code", authorizationCode);
     ("code_verifier", codeVerifier); ("client_id", clientId config);
     ("redirect_uri", signInRedirectUri config)].

(** The result is a JavaScript value; [JsNull] is [null]. *)
Definition requestAccessToken (authorizationCode codeVerifier : string) : M JsValue :=
  try_catch
    (fun w =>
       if negb (isDef (_discovery w)) then throw (Error "No discovery found") w
       else if negb (isDef (_config w)) then throw (Error "No config found") w
       else
         match _config w, _discovery w with
         | Some config, Some discovery =>
             (tokenRequestResponse <-
                fetch env (exchange_request discovery config authorizationCode codeVerifier) ;;
              tokenResponse <- json tokenRequestResponse ;;
              ret tokenResponse) w
         | None, _ => throw (null_read "clientId") w
         | _, None => throw (null_read "tokenEndpoint") w
         end)
    (fun e => (* console.error(e) *) ret JsNull).

Definition end_session_request (discovery : DiscoveryDocument)
    (config : KeycloakClientConfig) (refreshToken : string) : NetRequest :=
  post_form (template (endSessionEndpoint discovery))
    [("client_id", clientId config); ("refresh_token", refreshToken)].

Definition end_session_failed_message (r : HttpResponse) (body : string) : string :=
  "Failed to end session: " +:+ pretty (status r) +:+ ": " +:+
  statusText r +:+ " " +:+ body.

Definition endSession : M unit :=
  tokens <- AuthTokenService.retrieveTokens env ;;
  fun w =>
  if negb (isDef (_discovery w)) then throw (Error "No discovery found") w
  else if negb (isDef (_config w)) then throw (Error "No config found") w
  else if negb (isDef tokens) then throw (Error "No tokens found") w
  else
  match truthy (tokens ≫= refreshToken) with      (* tokens?.refreshToken *)
  | None => throw (Error "No refresh token found") w
  | Some refreshToken =>
      match _config w, _discovery w with
      | Some config, Some discovery =>
          (response <- fetch env (end_session_request discovery config refreshToken) ;;
           if ok response then
             (* console.info("Session ended successfully") *) ret tt
           else
             body <- text response ;;
             throw (Error (end_session_failed_message response body))) w
      | None, _ => throw (null_read "clientId") w
      | _, None => throw (null_read "endSessionEndpoint") w
      end
  end.
End WithEnv.
End AuthService.

(** ** auth.provider.tsx: the [logout] callback *)
Inductive AuthLogoutResult : Type :=
  | LogoutSuccess                    (* { status: "success" } *)
  | LogoutFailure (error : Exn).     (* { status: "failure", error } *)

Inductive AuthLoginResult : Type :=
  | LoginSuccess (tokens : JsValue)  (* { status: "success", tokens } *)
  | LoginFailure (error : Exn).      (* { status: "failure", error } *)

(** What [promptAsync] resolves to (expo-auth-session): [type] and, for a
    result of type ["success"], [params.code]. *)
Record AuthSessionResult : Type := {
  result_type : string;
  params_code : option string
}.

(** The [request] of [useAuthRequest], as far as [login] reads it. *)
Record AuthRequest : Type := {
  codeVerifier : option string
}.

(** The provider: the world its callbacks act on, and the React state that
    is the provider's alone. *)
Record Provider : Type := {
  services : World;
  loading : bool;
  error : option string
}.

Module AuthProvider.
Section WithEnv.
Variable env : Env.

Definition setIsAuthenticated (b : bool) : M unit := fun w =>
  (inr tt, with_isAuthenticated w b).

Definition logout : M AuthLogoutResult :=
  try_catch
    (AuthService.endSession env ;;;
     AuthTokenService.removeTokens env ;;;
     setIsAuthenticated false ;;;
     ret LogoutSuccess)
    (fun e => (* console.error(e) *) ret (LogoutFailure e)).

Definition refreshAccessToken : M unit :=
  AuthTokenService.refreshTokens env ;;; ret tt.

(** What the jwt-decode package makes of a token, and whether an [exp]
    satisfies [exp < Date.now() / 1000] on the clock of the device. *)
Variable jwtDecode : string -> option JsValue.
Variable before_now : JsValue -> bool.

(** The [try] block of [handleInitAuth]. *)
Definition restore_session (discovery : DiscoveryDocument) : M unit :=
  tokens <- AuthTokenService.retrieveTokens env ;;
  if negb (isDef tokens) then throw (Error "No tokens found in secure storage") else
  match tokens with
  | None => throw (null_read "accessToken")     (* const { ... } = tokens *)
  | Some tokens =>
  match accessToken tokens with
  | None => throw (Error "No access token found in secure storage")  (* !isDef *)
  | Some accessToken =>
  if negb (isDef (refreshToken tokens))
  then throw (Error "No refresh token found in secure storage")
  else if negb (isDef (idToken tokens))
  then throw (Error "No id token found in secure storage")
  else
    decodedAccessToken <- jwt_decode jwtDecode accessToken ;;
    exp <- get_prop decodedAccessToken "exp" ;;        (* decodedAccessToken.exp *)
    (if isDefJs exp && before_now exp then
       (* console.info("Access token expired, attempting to refresh") *)
       if negb (isDef (truthy (tokenEndpoint discovery)))   (* !discovery.tokenEndpoint *)
       then throw (Error "No token endpoint provided, aborting refresh")
       else AuthTokenService.refreshTokens env ;;; ret tt
     else ret tt) ;;;
    setIsAuthenticated true
  end end.

Definition handleInitAuth (discovery : DiscoveryDocument) (config : KeycloakClientConfig)
    (p : Provider) : Result unit * Provider :=
  match (AuthService.init discovery config ;;;
         AuthTokenService.init (default "" (tokenEndpoint discovery)) (clientId config))
          (services p) with
  | (inl e, w) => (inl e, {| services := w; loading := loading p; error := error p |})
  | (inr _, w) =>
      match try_catch (restore_session discovery)
              (fun e => (* console.warn(e) *) setIsAuthenticated false) w with
      | (r, w') =>
          (* finally: setLoading(false) *)
          (r, {| services := w'; loading := false; error := error p |})
      end
  end.

(** [login], given how [promptAsync] settles and the [request] of the
    hook. *)
Definition login (promptAsync : Result (option AuthSessionResult))
    (request : option AuthRequest) : M AuthLoginResult :=
  try_catch
    (promptAsyncResponse <- (fun w => (promptAsync, w)) ;;
     if negb (isDef request) then throw (Error "No request found")
     else if negb (isDef promptAsyncResponse)
             || negb (String.eqb (default "" (result_type <$> promptAsyncResponse))
                        "success")
     then throw (Error "No success in promptAsyncResponse")
     else if negb (isDef (promptAsyncResponse ≫= params_code))
     then throw (Error "No code in promptAsyncResponse")
     else if negb (isDef (request ≫= codeVerifier))
     then throw (Error "No code verifier in request")
     else
       match promptAsyncResponse ≫= params_code, request ≫= codeVerifier with
       | Some code, Some codeVerifier =>
           tokens <- AuthService.requestAccessToken env code codeVerifier ;;
           if negb (isDefJs tokens) then throw (Error "Tokens not defined")
           else
             AuthTokenService.storeTokens env tokens ;;;
             setIsAuthenticated true ;;;
             ret (LoginSuccess tokens)
       | None, _ => throw (null_read "code")
       | _, None => throw (null_read "codeVerifier")
       end)
    (fun e => setIsAuthenticated false ;;; (* console.error(e) *) ret (LoginFailure e)).
End WithEnv.
End AuthProvider.

(** ** auth-rest.service.ts: the Axios instance and its interceptors *)
Module AuthRestService.
Section WithEnv.
Variable env : Env.

Definition bearer (token : string) : string := "Bearer " +:+ token.

(** [if (token) { config.headers.Authorization = `Bearer ${token}` }] *)
Definition with_bearer (config : AxiosRequestConfig) (token : option string)
    : AxiosRequestConfig :=
  match truthy token with
  | Some token => set_header config "Authorization" (bearer token)
  | None => config
  end.

(** Request interceptor. *)
Definition request_onFulfilled (config : AxiosRequestConfig) : M AxiosRequestConfig :=
  token <- AuthTokenService.getAccessToken env ;;
  ret (with_bearer config token).

Definition net_request (config : AxiosRequestConfig) : NetRequest :=
  {| req_method := method config; req_url := url config;
     req_headers := headers config; req_body := DataBody (data config) |}.

(** Axios' adapter with the default [validateStatus]: a response outside
    200-299 rejects with an error that holds the response; a failed
    transport rejects with an error that holds none. *)
Definition dispatchRequest (config : AxiosRequestConfig) : M HttpResponse := fun w =>
  match network env (length (net_log w)) (net_request config) with
  | Some response =>
      if ok response then (inr response, with_net w (EvAxios config))
      else (inl (AxiosError config (Some response)), with_net w (EvAxios config))
  | None => (inl (AxiosError config None), with_net w (EvAxios config))
  end.

Definition undefined_status : Exn :=
  TypeError "Cannot read properties of undefined (reading 'status')".

(** The body of the [try] block of the response interceptor, up to the
    replay. *)
Definition refresh_and_reattach (originalRequest : AxiosRequestConfig)
    : M AxiosRequestConfig :=
  AuthTokenService.refreshTokens env ;;;
  token <- AuthTokenService.getAccessToken env ;;
  ret (with_bearer originalRequest token).

(** Response interceptor, error path; [self] is [this.axiosInstance]. *)
Definition response_onRejected
    (self : AxiosRequestConfig -> World -> option (Result HttpResponse * World))
    (error : Exn) (w : World) : option (Result HttpResponse * World) :=
  match error with
  | AxiosError originalRequest (Some response) =>
      if (status response =? 401)%N && negb (_retry originalRequest) then
        let originalRequest := set_retry originalRequest true in
        match refresh_and_reattach originalRequest w with
        | (inr originalRequest, w') => self originalRequest w'
        | (inl refreshError, w') => Some (inl refreshError, w')
        end
      else Some (inl error, w)
  | _ => (* error.response is undefined *) Some (inl undefined_status, w)
  end.

(** [this.axiosInstance(config)]; [None] when the fuel runs out. *)
Fixpoint axiosInstance (fuel : nat) (config : AxiosRequestConfig) (w : World)
    : option (Result HttpResponse * World) :=
  match fuel with
  | O => None
  | S fuel =>
      match request_onFulfilled config w with
      | (inl error, w1) => response_onRejected (axiosInstance fuel) error w1
      | (inr config, w1) =>
          match dispatchRequest config w1 with
          | (inr response, w2) => Some (inr response, w2)
          | (inl error, w2) => response_onRejected (axiosInstance fuel) error w2
          end
      end
  end.

(** [response.data]: Axios parses a JSON body and keeps any other as text. *)
Definition response_data (r : HttpResponse) : JsValue :=
  match body_json r with
  | Some v => v
  | None => JsString (body_text r)
  end.

(** [config || {}] *)
Definition or_empty (config : option AxiosRequestConfig) : AxiosRequestConfig :=
  match config with
  | Some config => config
  | None => {| url := ""; method := "get"; headers := ∅; data := JsUndefined;
               _retry := false |}
  end.

(** [(await this.axiosInstance.<m>(u, ...)).data] *)
Definition verb (m : string) (fuel : nat) (u : string) (d : JsValue)
    (config : option AxiosRequestConfig) (w : World) : option (Result JsValue * World) :=
  match axiosInstance fuel
          {| url := u; method := m; headers := headers (or_empty config); data := d;
             _retry := _retry (or_empty config) |} w with
  | Some (inr response, w') => Some (inr (response_data response), w')
  | Some (inl e, w') => Some (inl e, w')
  | None => None
  end.

Definition get (fuel : nat) (u : string) (config : option AxiosRequestConfig) :=
  verb "get" fuel u (data (or_empty config)) config.
Definition post (fuel : nat) (u : string) (d : JsValue)
    (config : option AxiosRequestConfig) :=
  verb "post" fuel u d config.
Definition put (fuel : nat) (u : string) (d : JsValue)
    (config : option AxiosRequestConfig) :=
  verb "put" fuel u d config.
Definition delete (fuel : nat) (u : string) (config : option AxiosRequestConfig) :=
  verb "delete" fuel u (data (or_empty config)) config.
End WithEnv.
End AuthRestService.

(** ** Vocabulary of the specification *)

Import TOKEN_STORAGE_KEY.

(** The string under key [k] of a JSON object. *)
Definition string_prop (v : JsValue) (k : string) : option string :=
  match v with
  | JsObject props =>
      match assoc k props with
      | Some (JsString s) => Some s
      | _ => None
      end
  | _ => None
  end.

(** Assumptions on the storage layer: it refuses no write, no delete. *)
Definition writes_ok (env : Env) : Prop :=
  forall n k v, store_fault env n (OpSet k v) = false.

Definition deletes_ok (env : Env) : Prop :=
  forall n k, store_fault env n (OpDelete k) = false.

(** Whether one of the three reads of a [retrieveTokens] that starts in [w]
    raises. *)
Definition some_read_raises (env : Env) (w : World) : bool :=
  store_fault env (store_ops w) (OpGet ACCESS_TOKEN)
  || store_fault env (S (store_ops w)) (OpGet REFRESH_TOKEN)
  || store_fault env (S (S (store_ops w))) (OpGet ID_TOKEN).

(** The token set the store holds. *)
Definition stored_tokens (w : World) : TokenSet :=
  {| accessToken := secure_store w !! ACCESS_TOKEN;
     refreshToken := secure_store w !! REFRESH_TOKEN;
     idToken := secure_store w !! ID_TOKEN |}.

(** The error classes of the specification, on the errors the code throws. *)
Definition NoTokensError (e : Exn) : Prop := e = Error "No tokens found".
Definition NoRefreshTokenError (e : Exn) : Prop := e = Error "No refresh token found".
Definition NotInitializedError (e : Exn) : Prop :=
  e = Error "No client ID found" \/ e = Error "No token endpoint found".
Definition RefreshFailedError (e : Exn) (r : HttpResponse) : Prop :=
  e = Error ("Failed to refresh tokens: " +:+ pretty (status r) +:+ ": " +:+
             statusText r +:+ " " +:+ body_text r).
Definition precondition_error (e : Exn) : Prop :=
  NoTokensError e \/ NoRefreshTokenError e \/ NotInitializedError e.

Definition reads_ok (env : Env) : Prop :=
  forall n k, store_fault env n (OpGet k) = false.

(** What [getAccessToken] returns in [w], and the world it leaves. *)
Definition seen_token (env : Env) (w : World) : option string :=
  if some_read_raises env w then None else secure_store w !! ACCESS_TOKEN.

Definition after_reads (env : Env) (w : World) : World :=
  snd (AuthTokenService.retrieveTokens env w).

(** The config the request interceptor hands to the adapter for a request
    made in [w], and the world once that request has left. *)
Definition first_attempt (env : Env) (config : AxiosRequestConfig) (w : World)
    : AxiosRequestConfig :=
  AuthRestService.with_bearer config (seen_token env w).

Definition after_first_attempt (env : Env) (config : AxiosRequestConfig) (w : World)
    : World :=
  with_net (after_reads env w) (EvAxios (first_attempt env config w)).

(** A computation that touches neither the network log nor the count of
    refreshes. *)
Definition store_only {A} (m : M A) : Prop :=
  forall w, net_log (snd (m w)) = net_log w
            /\ refresh_calls (snd (m w)) = refresh_calls w.

(** How the dispatch of a request that will not be replayed ends, when it
    is the [n]-th request on the network. *)
Definition settle (env : Env) (c : AxiosRequestConfig) (n : nat) : Result HttpResponse :=
  match network env n (AuthRestService.net_request c) with
  | None => inl AuthRestService.undefined_status
  | Some response =>
      if ok response then inr response else inl (AxiosError c (Some response))
  end.

(** What the operations on tokens never touch: the keys of the store other
    than their three, the configuration of the two services, and the
    provider's [isAuthenticated]. *)
Definition token_frame (w w' : World) : Prop :=
  (forall k, k <> ACCESS_TOKEN -> k <> REFRESH_TOKEN -> k <> ID_TOKEN ->
             secure_store w' !! k = secure_store w !! k)
  /\ _clientId w' = _clientId w /\ _tokenEndpoint w' = _tokenEndpoint w
  /\ _discovery w' = _discovery w /\ _config w' = _config w
  /\ isAuthenticated w' = isAuthenticated w.

(** Whether the expiry test of [handleInitAuth],
    [isDef(claims.exp) && claims.exp < Date.now() / 1000], holds of decoded
    claims; on [null] and [undefined] the test throws instead. *)
Definition expired (before_now : JsValue -> bool) (claims : JsValue) : bool :=
  match claims with
  | JsObject props =>
      isDefJs (default JsUndefined (assoc "exp" props))
      && before_now (default JsUndefined (assoc "exp" props))
  | _ => false
  end.

(** The world once [handleInitAuth] has initialised the two services. *)
Definition initialised (discovery : DiscoveryDocument) (config : KeycloakClientConfig)
    (w : World) : World :=
  with_token_service (with_auth_service w (Some discovery) (Some config))
    (Some (default "" (tokenEndpoint discovery))) (Some (clientId config)).

(** A world in which the services are as [handleInitAuth] initialised
    them. *)
Definition configured (discovery : DiscoveryDocument) (config : KeycloakClientConfig)
    (w : World) : Prop :=
  _discovery w = Some discovery /\ _config w = Some config
  /\ _clientId w = Some (clientId config)
  /\ _tokenEndpoint w = Some (default "" (tokenEndpoint discovery)).

(** What [login] checks before it contacts the token endpoint, in the order
    of the source: the authorization code and the code verifier it goes on
    with, or the error it throws. *)
Definition login_inputs (promptAsync : Result (option AuthSessionResult))
    (request : option AuthRequest) : Exn + string * string :=
  match promptAsync with
  | inl e => inl e
  | inr promptAsyncResponse =>
      match request with
      | None => inl (Error "No request found")
      | Some request =>
          match promptAsyncResponse with
          | None => inl (Error "No success in promptAsyncResponse")
          | Some result =>
              if negb (String.eqb (result_type result) "success")
              then inl (Error "No success in promptAsyncResponse")
              else
                match params_code result with
                | None => inl (Error "No code in promptAsyncResponse")
                | Some code =>
                    match codeVerifier request with
                    | None => inl (Error "No code verifier in request")
                    | Some verifier => inr (code, verifier)
                    end
                end
          end
      end
  end.

Definition token_key (key : string) : Prop :=
  key = ACCESS_TOKEN \/ key = REFRESH_TOKEN \/ key = ID_TOKEN.

Definition frames {A} (m : M A) : Prop :=
  forall w, token_frame w (snd (m w)).

(** The message of the error [setItemAsync] throws for a value that is not
    a string. *)
Definition invalid_value : Exn :=
  Error "Invalid value provided to SecureStore. Values must be strings".

(** The requests Axios dispatched, oldest first. *)
Fixpoint axios_sent (log : list NetEvent) : list AxiosRequestConfig :=
  match log with
  | [] => []
  | EvAxios c :: rest => c :: axios_sent rest
  | EvFetch _ :: rest => axios_sent rest
  end.

(** ** Scenarios

    Concrete environments and worlds on which the properties below are
    instantiated. *)

Definition reliable_store : nat -> StoreOp -> bool := fun _ _ => false.

Definition dq : string := String (Ascii.ascii_of_nat 34) EmptyString.
Definition quoted (s : string) : string := dq +:+ s +:+ dq.

Fixpoint members (l : list (string * string)) : string :=
  match l with
  | [] => ""
  | (k, v) :: rest =>
      quoted k +:+ ":" +:+ quoted v +:+
      match rest with [] => "" | _ => "," +:+ members rest end
  end.

(** A response whose body is a flat JSON object of strings. *)
Definition json_response (st : N) (stt : string) (l : list (string * string))
    : HttpResponse :=
  {| status := st; statusText := stt;
     body_text := "{" +:+ members l +:+ "}";
     body_json := Some (JsObject (map (fun kv => (fst kv, JsString (snd kv))) l)) |}.

Definition text_response (st : N) (stt body : string) : HttpResponse :=
  {| status := st; statusText := stt; body_text := body; body_json := None |}.

Definition new_tokens : HttpResponse :=
  json_response 200 "OK"
    [("access_token", "a2"); ("refresh_token", "r2"); ("id_token", "i2")].

Definition invalid_grant : HttpResponse :=
  json_response 400 "Bad Request" [("error", "invalid_grant")].

Definition session_store : gmap string string :=
  {[ ACCESS_TOKEN := "a1"; REFRESH_TOKEN := "r1"; ID_TOKEN := "i1" ]}.

Definition kc_discovery : DiscoveryDocument :=
  {| tokenEndpoint := Some "https://kc/token";
     endSessionEndpoint := Some "https://kc/logout" |}.

Definition kc_config : KeycloakClientConfig :=
  {| clientId := "app"; issuer := "https://kc"; scopes := ["openid"];
     signInRedirectUri := "app://callback" |}.

(** A world in which nothing was initialised yet. *)
Definition fresh_world (store : gmap string string) : World :=
  {| secure_store := store; store_ops := 0; net_log := []; refresh_calls := 0;
     _tokenEndpoint := None; _clientId := None;
     _discovery := None; _config := None; isAuthenticated := false |}.

(** A world after the provider initialised both services and found a
    session. *)
Definition running_world (store : gmap string string) : World :=
  {| secure_store := store; store_ops := 0; net_log := []; refresh_calls := 0;
     _tokenEndpoint := Some "https://kc/token"; _clientId := Some "app";
     _discovery := Some kc_discovery; _config := Some kc_config;
     isAuthenticated := true |}.

(** The network answers every request with [r]. *)
Definition always (r : HttpResponse) : Env :=
  {| store_fault := reliable_store; network := fun _ _ => Some r |}.

(** No request gets a response: the device is offline. *)
Definition offline : Env :=
  {| store_fault := reliable_store; network := fun _ _ => None |}.

Definition unauthorized : HttpResponse := text_response 401 "Unauthorized" "".

Definition api_data : HttpResponse := json_response 200 "OK" [("hello", "world")].

(** The API rejects the first request with 401 and accepts the next one;
    in between the token endpoint hands out new tokens. *)
Definition expired_once : Env :=
  {| store_fault := reliable_store;
     network := fun n _ =>
       match n with
       | 0 => Some unauthorized
       | 1 => Some new_tokens
       | _ => Some api_data
       end |}.

(** The API keeps rejecting with 401. *)
Definition expired_twice : Env :=
  {| store_fault := reliable_store;
     network := fun n _ =>
       match n with
       | 1 => Some new_tokens
       | _ => Some unauthorized
       end |}.

Definition get_data : AxiosRequestConfig :=
  {| url := "/api/data"; method := "get"; headers := ∅; data := JsUndefined;
     _retry := false |}.

(** A decoder that knows two tokens. *)
Definition toy_jwtDecode (token : string) : option JsValue :=
  if String.eqb token "a1" then Some (JsObject [("exp", JsNumber 1000)])
  else if String.eqb token "a2" then Some (JsObject [("exp", JsNumber 9000)])
  else None.

(** [exp < Date.now() / 1000] on a clock that shows [now] seconds. *)
Definition before (now : Z) (exp : JsValue) : bool :=
  match exp with
  | JsNumber exp => (exp <? now)%Z
  | _ => false
  end.

Definition mounting (store : gmap string string) : Provider :=
  {| services := fresh_world store; loading := true; error := None |}.

Definition prompt_success : Result (option AuthSessionResult) :=
  inr (Some {| result_type := "success"; params_code := Some "code" |}).

Definition prompt_cancel : Result (option AuthSessionResult) :=
  inr (Some {| result_type := "cancel"; params_code := None |}).

Definition pkce_request : option AuthRequest :=
  Some {| codeVerifier := Some "verifier" |}.

(** The token endpoint hands out an access token only. *)
Definition access_only : HttpResponse :=
  json_response 200 "OK" [("access_token", "a2")].

(** A world in which only the services are initialised: nobody is logged
    in. *)
Definition logged_out_world : World :=
  with_isAuthenticated (running_world ∅) false.

(** * Properties *)

Section TokenStore.
Variable env : Env.

Ltac unfold_store :=
  unfold AuthTokenService.retrieveTokens, AuthTokenService.removeTokens,
    AuthTokenService.getAccessToken,
    SecureStore.getItemAsync, SecureStore.deleteItemAsync, SecureStore.attempt,
    try_catch, bind, ret, throw, some_read_raises, stored_tokens in *;
  cbn [store_ops secure_store with_store with_refresh_call net_log refresh_calls
       _clientId _tokenEndpoint _discovery _config isAuthenticated fst snd] in *.

Lemma retrieveTokens_result (w : World) :
  fst (AuthTokenService.retrieveTokens env w) =
  inr (if some_read_raises env w then None else Some (stored_tokens w)).
Proof.
  unfold_store.
  destruct (store_fault env (store_ops w) _); [reflexivity|]. cbn.
  destruct (store_fault env (S (store_ops w)) _); [reflexivity|]. cbn.
  destruct (store_fault env (S (S (store_ops w))) _); reflexivity.
Qed.

(** [retrieveTokens] only advances the operation count of the store. *)
Lemma retrieveTokens_frame (w : World) :
  let w' := snd (AuthTokenService.retrieveTokens env w) in
  secure_store w' = secure_store w /\ net_log w' = net_log w /\
  refresh_calls w' = refresh_calls w /\
  _clientId w' = _clientId w /\ _tokenEndpoint w' = _tokenEndpoint w /\
  _discovery w' = _discovery w /\ _config w' = _config w /\
  isAuthenticated w' = isAuthenticated w.
Proof.
  unfold_store.
  destruct (store_fault env (store_ops w) _); [cbn; tauto|]. cbn.
  destruct (store_fault env (S (store_ops w)) _); [cbn; tauto|]. cbn.
  destruct (store_fault env (S (S (store_ops w))) _); cbn; tauto.
Qed.

Lemma retrieveTokens_ghost (w : World) :
  AuthTokenService.retrieveTokens env (with_refresh_call w) =
  (fst (AuthTokenService.retrieveTokens env w),
   with_refresh_call (snd (AuthTokenService.retrieveTokens env w))).
Proof.
  unfold_store.
  destruct (store_fault env (store_ops w) _); [reflexivity|]. cbn.
  destruct (store_fault env (S (store_ops w)) _); [reflexivity|]. cbn.
  destruct (store_fault env (S (S (store_ops w))) _); reflexivity.
Qed.

(** C8: [retrieveTokens] never throws; it returns [null] for the whole
    result as soon as one of its storage reads raises, and otherwise the
    token set of the store, in which a missing key reads as [null]. *)
Theorem retrieveTokens_null_or_tokenset (w : World) :
  exists w',
    AuthTokenService.retrieveTokens env w =
    (inr (if some_read_raises env w then None
          else Some {| accessToken := secure_store w !! ACCESS_TOKEN;
                       refreshToken := secure_store w !! REFRESH_TOKEN;
                       idToken := secure_store w !! ID_TOKEN |}), w').
Proof.
  pose proof (retrieveTokens_result w) as Hr. unfold stored_tokens in Hr.
  destruct (AuthTokenService.retrieveTokens env w) as [r w'].
  exists w'. cbn in Hr. now rewrite Hr.
Qed.

Lemma bind_inr {A B} (m : M A) (k : A -> M B) w a w' :
  m w = (inr a, w') -> bind m k w = k a w'.
Proof. unfold bind. now intros ->. Qed.

Lemma bind_inl {A B} (m : M A) (k : A -> M B) w e w' :
  m w = (inl e, w') -> bind m k w = (inl e, w').
Proof. unfold bind. now intros ->. Qed.

Lemma get_prop_string (v : JsValue) (k s : string) (w : World) :
  string_prop v k = Some s -> get_prop v k w = (inr (JsString s), w).
Proof.
  destruct v as [| | | | | |props]; try discriminate. cbn.
  destruct (assoc k props) as [[]|]; try discriminate. now intros [= ->].
Qed.

(** A [storeTokens] that completes has written the three strings. *)
Lemma storeTokens_written (tr : JsValue) (a r i : string) (w w1 : World) :
  string_prop tr "access_token" = Some a ->
  string_prop tr "refresh_token" = Some r ->
  string_prop tr "id_token" = Some i ->
  AuthTokenService.storeTokens env tr w = (inr tt, w1) ->
  secure_store w1 =
    <[ID_TOKEN := i]> (<[REFRESH_TOKEN := r]> (<[ACCESS_TOKEN := a]> (secure_store w)))
  /\ net_log w1 = net_log w /\ refresh_calls w1 = refresh_calls w.
Proof.
  intros Ha Hr Hi. unfold AuthTokenService.storeTokens.
  rewrite (bind_inr _ _ _ _ _ (get_prop_string _ _ _ w Ha)).
  unfold bind at 1. cbn [SecureStore.setItemAsync]. unfold SecureStore.attempt at 1.
  destruct (store_fault env (store_ops w) _); [discriminate|].
  rewrite (bind_inr _ _ _ _ _ (get_prop_string _ _ _ _ Hr)).
  unfold bind at 1. cbn [SecureStore.setItemAsync]. unfold SecureStore.attempt at 1.
  destruct (store_fault env _ _); [discriminate|].
  rewrite (bind_inr _ _ _ _ _ (get_prop_string _ _ _ _ Hi)).
  cbn [SecureStore.setItemAsync]. unfold SecureStore.attempt.
  destruct (store_fault env _ _); [discriminate|].
  intros [= <-]. cbn. auto.
Qed.

(** With a storage layer that refuses no write, [storeTokens] completes. *)
Lemma storeTokens_completes (tr : JsValue) (a r i : string) (w : World) :
  string_prop tr "access_token" = Some a ->
  string_prop tr "refresh_token" = Some r ->
  string_prop tr "id_token" = Some i ->
  writes_ok env ->
  exists w1, AuthTokenService.storeTokens env tr w = (inr tt, w1).
Proof.
  intros Ha Hr Hi Hw. unfold AuthTokenService.storeTokens.
  rewrite (bind_inr _ _ _ _ _ (get_prop_string _ _ _ w Ha)).
  unfold bind at 1. cbn [SecureStore.setItemAsync]. unfold SecureStore.attempt at 1.
  rewrite Hw.
  rewrite (bind_inr _ _ _ _ _ (get_prop_string _ _ _ _ Hr)).
  unfold bind at 1. cbn [SecureStore.setItemAsync]. unfold SecureStore.attempt at 1.
  rewrite Hw.
  rewrite (bind_inr _ _ _ _ _ (get_prop_string _ _ _ _ Hi)).
  cbn [SecureStore.setItemAsync]. unfold SecureStore.attempt.
  rewrite Hw. eauto.
Qed.

(** With a storage layer that refuses no delete, [removeTokens] completes
    and the three keys are gone. *)
Lemma removeTokens_completes (w : World) :
  deletes_ok env ->
  exists w1,
    AuthTokenService.removeTokens env w = (inr tt, w1)
    /\ secure_store w1 =
         delete ID_TOKEN (delete REFRESH_TOKEN (delete ACCESS_TOKEN (secure_store w)))
    /\ net_log w1 = net_log w /\ refresh_calls w1 = refresh_calls w.
Proof.
  intros Hd. unfold AuthTokenService.removeTokens, SecureStore.deleteItemAsync,
    SecureStore.attempt, bind.
  rewrite !Hd. cbn. eauto.
Qed.

(** C7: after a [storeTokens] that wrote a token response with the strings
    [a], [r] and [i], an immediately following [retrieveTokens] whose reads
    succeed returns the token set of exactly these three values. *)
Theorem storeTokens_retrieveTokens_roundtrip
    (tr : JsValue) (a r i : string) (w w1 : World) :
  string_prop tr "access_token" = Some a ->
  string_prop tr "refresh_token" = Some r ->
  string_prop tr "id_token" = Some i ->
  AuthTokenService.storeTokens env tr w = (inr tt, w1) ->
  some_read_raises env w1 = false ->
  fst (AuthTokenService.retrieveTokens env w1) =
  inr (Some {| accessToken := Some a; refreshToken := Some r; idToken := Some i |}).
Proof.
  intros Ha Hr Hi Hst Hrd.
  destruct (storeTokens_written _ _ _ _ _ _ Ha Hr Hi Hst) as (Hs & _).
  rewrite retrieveTokens_result, Hrd. unfold stored_tokens. rewrite Hs.
  do 3 f_equal; unfold ACCESS_TOKEN, REFRESH_TOKEN, ID_TOKEN.
  - now rewrite !lookup_insert_ne, lookup_insert_eq by done.
  - now rewrite lookup_insert_ne, lookup_insert_eq by done.
  - now rewrite lookup_insert_eq.
Qed.
End TokenStore.

Section Refresh.
Variable env : Env.

(** [refreshTokens], one case per path through it. *)
Lemma refreshTokens_eq (w : World) :
  AuthTokenService.refreshTokens env w =
  let w1 := with_refresh_call (snd (AuthTokenService.retrieveTokens env w)) in
  match fst (AuthTokenService.retrieveTokens env w) with
  | inl e => (inl e, w1)
  | inr None => (inl (Error "No tokens found"), w1)
  | inr (Some tokens) =>
    match truthy (refreshToken tokens) with
    | None => (inl (Error "No refresh token found"), w1)
    | Some rt =>
      match truthy (_clientId w) with
      | None => (inl (Error "No client ID found"), w1)
      | Some cid =>
        match truthy (_tokenEndpoint w) with
        | None => (inl (Error "No token endpoint found"), w1)
        | Some ep =>
          let req := AuthTokenService.refresh_request ep cid rt in
          let w2 := with_net w1 (EvFetch req) in
          match network env (length (net_log w)) req with
          | None => (inl (NetworkError req), w2)
          | Some response =>
            if ok response then
              (tokenResponse <- json response ;;
               AuthTokenService.storeTokens env tokenResponse ;;;
               ret tokenResponse) w2
            else
              (AuthTokenService.removeTokens env ;;;
               body <- text response ;;
               throw (Error (AuthTokenService.refresh_failed_message response body))) w2
          end
        end
      end
    end
  end.
Proof.
  unfold AuthTokenService.refreshTokens.
  unfold bind at 1 2. rewrite retrieveTokens_ghost.
  destruct (retrieveTokens_frame env w) as (_ & Hlog & _ & Hcid & Hep & _).
  destruct (fst (AuthTokenService.retrieveTokens env w)) as [e|[tokens|]];
    cbn zeta; try reflexivity.
  cbn [isDef negb]. change (Some tokens ≫= refreshToken) with (refreshToken tokens).
  destruct (truthy (refreshToken tokens)) as [rt|]; [|reflexivity].
  cbn [_clientId _tokenEndpoint with_refresh_call]. rewrite Hcid, Hep.
  destruct (truthy (_clientId w)) as [cid|]; [|reflexivity].
  destruct (truthy (_tokenEndpoint w)) as [ep|]; [|reflexivity].
  unfold bind at 1. unfold fetch. cbn [net_log with_refresh_call]. rewrite Hlog.
  destruct (network env _ _) as [response|]; [|reflexivity].
  now destruct (ok response).
Qed.

(** C1: when the stored tokens are retrievable, a refresh token is present,
    client id and token endpoint are set and the token endpoint answers the
    POST with a status outside 200-299, [refreshTokens] (on a storage layer
    that refuses no delete) removes the three stored entries and then throws
    the error whose message carries the status code, the status text and the
    body of the response; afterwards the store holds none of the three keys. *)
Theorem refreshTokens_non2xx_clears_and_throws
    (w : World) (tokens : TokenSet) (rt cid ep : string) (response : HttpResponse) :
  fst (AuthTokenService.retrieveTokens env w) = inr (Some tokens) ->
  truthy (refreshToken tokens) = Some rt ->
  truthy (_clientId w) = Some cid ->
  truthy (_tokenEndpoint w) = Some ep ->
  network env (length (net_log w)) (AuthTokenService.refresh_request ep cid rt)
    = Some response ->
  ok response = false ->
  deletes_ok env ->
  exists e w',
    AuthTokenService.refreshTokens env w = (inl e, w')
    /\ RefreshFailedError e response
    /\ secure_store w' =
         delete ID_TOKEN (delete REFRESH_TOKEN (delete ACCESS_TOKEN (secure_store w)))
    /\ secure_store w' !! ACCESS_TOKEN = None
    /\ secure_store w' !! REFRESH_TOKEN = None
    /\ secure_store w' !! ID_TOKEN = None.
Proof.
  intros Hret Hrt Hcid Hep Hnet Hok Hdel.
  rewrite refreshTokens_eq, Hret, Hrt, Hcid, Hep. cbn zeta. rewrite Hnet, Hok.
  destruct (retrieveTokens_frame env w) as (Hst & _).
  destruct (removeTokens_completes env
              (with_net (with_refresh_call (snd (AuthTokenService.retrieveTokens env w)))
                 (EvFetch (AuthTokenService.refresh_request ep cid rt))) Hdel)
    as (w3 & Hrm & Hs3 & _).
  cbn [secure_store with_net with_refresh_call] in Hs3. rewrite Hst in Hs3.
  rewrite (bind_inr _ _ _ _ _ Hrm).
  eexists _, w3. split; [reflexivity|]. split; [reflexivity|].
  split; [exact Hs3|]. rewrite Hs3. unfold ACCESS_TOKEN, REFRESH_TOKEN, ID_TOKEN.
  repeat split.
  - now rewrite !lookup_delete_ne, lookup_delete_eq by done.
  - now rewrite lookup_delete_ne, lookup_delete_eq by done.
  - now rewrite lookup_delete_eq.
Qed.

(** C9: under the same preconditions, when the token endpoint answers 2xx
    with a JSON token response, [refreshTokens] (on a storage layer that
    refuses no write) stores the three token fields of the response over
    whatever the store held and returns the parsed response. *)
Theorem refreshTokens_2xx_overwrites_and_returns
    (w : World) (tokens : TokenSet) (rt cid ep : string) (response : HttpResponse)
    (tokenResponse : JsValue) (a r i : string) :
  fst (AuthTokenService.retrieveTokens env w) = inr (Some tokens) ->
  truthy (refreshToken tokens) = Some rt ->
  truthy (_clientId w) = Some cid ->
  truthy (_tokenEndpoint w) = Some ep ->
  network env (length (net_log w)) (AuthTokenService.refresh_request ep cid rt)
    = Some response ->
  ok response = true ->
  body_json response = Some tokenResponse ->
  string_prop tokenResponse "access_token" = Some a ->
  string_prop tokenResponse "refresh_token" = Some r ->
  string_prop tokenResponse "id_token" = Some i ->
  writes_ok env ->
  exists w',
    AuthTokenService.refreshTokens env w = (inr tokenResponse, w')
    /\ secure_store w' =
         <[ID_TOKEN := i]> (<[REFRESH_TOKEN := r]> (<[ACCESS_TOKEN := a]> (secure_store w)))
    /\ stored_tokens w' =
         {| accessToken := Some a; refreshToken := Some r; idToken := Some i |}.
Proof.
  intros Hret Hrt Hcid Hep Hnet Hok Hjs Ha Hr Hi Hwr.
  rewrite refreshTokens_eq, Hret, Hrt, Hcid, Hep. cbn zeta. rewrite Hnet, Hok.
  destruct (retrieveTokens_frame env w) as (Hst & _).
  unfold json. rewrite Hjs. unfold bind at 1, ret at 1.
  destruct (storeTokens_completes env _ _ _ _
              (with_net (with_refresh_call (snd (AuthTokenService.retrieveTokens env w)))
                 (EvFetch (AuthTokenService.refresh_request ep cid rt))) Ha Hr Hi Hwr)
    as (w3 & Hsto).
  rewrite (bind_inr _ _ _ _ _ Hsto).
  destruct (storeTokens_written env _ _ _ _ _ _ Ha Hr Hi Hsto) as (Hs3 & _).
  cbn [secure_store with_net with_refresh_call] in Hs3. rewrite Hst in Hs3.
  exists w3. split; [reflexivity|]. split; [exact Hs3|].
  unfold stored_tokens. rewrite Hs3. unfold ACCESS_TOKEN, REFRESH_TOKEN, ID_TOKEN.
  f_equal.
  - now rewrite !lookup_insert_ne, lookup_insert_eq by done.
  - now rewrite lookup_insert_ne, lookup_insert_eq by done.
  - now rewrite lookup_insert_eq.
Qed.

Lemma not_precondition_error (e : Exn) :
  match e with
  | Error m =>
      m <> "No tokens found" /\ m <> "No refresh token found" /\
      m <> "No client ID found" /\ m <> "No token endpoint found"
  | _ => True
  end ->
  ~ precondition_error e.
Proof.
  unfold precondition_error, NoTokensError, NoRefreshTokenError, NotInitializedError.
  destruct e; intros H; try (intros [?|[?|[?|?]]]; discriminate).
  destruct H as (H1 & H2 & H3 & H4).
  intros [?|[?|[?|?]]]; congruence.
Qed.

Lemma bind_throws {A B} (m : M A) (k : A -> M B) w e w' :
  bind m k w = (inl e, w') ->
  m w = (inl e, w') \/ exists a w1, m w = (inr a, w1) /\ k a w1 = (inl e, w').
Proof.
  unfold bind. destruct (m w) as [[e1|a] w1]; intros H.
  - left. now injection H as -> ->.
  - right. exists a, w1. now split.
Qed.

Lemma get_prop_error (v : JsValue) (k : string) (w w' : World) (e : Exn) :
  get_prop v k w = (inl e, w') -> ~ precondition_error e.
Proof.
  destruct v; cbn; intros [= <- _]; now apply not_precondition_error.
Qed.

Lemma setItemAsync_error (k : string) (v : JsValue) (w w' : World) (e : Exn) :
  SecureStore.setItemAsync env k v w = (inl e, w') -> ~ precondition_error e.
Proof.
  destruct v; cbn; unfold SecureStore.attempt;
    try (intros [= <- _]; apply not_precondition_error; cbn; repeat split; discriminate).
  destruct (store_fault env _ _); intros [= <- _]. now apply not_precondition_error.
Qed.

Lemma deleteItemAsync_error (k : string) (w w' : World) (e : Exn) :
  SecureStore.deleteItemAsync env k w = (inl e, w') -> ~ precondition_error e.
Proof.
  unfold SecureStore.deleteItemAsync, SecureStore.attempt.
  destruct (store_fault env _ _); intros [= <- _]. now apply not_precondition_error.
Qed.

(** What [storeTokens] and [removeTokens] throw is none of the precondition
    errors. *)
Lemma storeTokens_error (tr : JsValue) (w w' : World) (e : Exn) :
  AuthTokenService.storeTokens env tr w = (inl e, w') -> ~ precondition_error e.
Proof.
  unfold AuthTokenService.storeTokens. intros H.
  repeat (apply bind_throws in H as [H|(? & ? & _ & H)];
          [first [ eapply get_prop_error, H | eapply setItemAsync_error, H ]|]).
  eapply setItemAsync_error, H.
Qed.

Lemma removeTokens_error (w w' : World) (e : Exn) :
  AuthTokenService.removeTokens env w = (inl e, w') -> ~ precondition_error e.
Proof.
  unfold AuthTokenService.removeTokens. intros H.
  repeat (apply bind_throws in H as [H|(? & ? & _ & H)];
          [eapply deleteItemAsync_error, H|]).
  eapply deleteItemAsync_error, H.
Qed.

(** C10: a [refreshTokens] that throws one of its precondition errors sent
    nothing over the network and left the store, hence each of the three
    token entries, as it was. *)
Theorem refreshTokens_precondition_error_frame (w w' : World) (e : Exn) :
  AuthTokenService.refreshTokens env w = (inl e, w') ->
  precondition_error e ->
  net_log w' = net_log w
  /\ secure_store w' = secure_store w
  /\ stored_tokens w' = stored_tokens w.
Proof.
  intros Hrun Hpre.
  enough (net_log w' = net_log w /\ secure_store w' = secure_store w) as [Hn Hs].
  { unfold stored_tokens. now rewrite Hs. }
  rewrite refreshTokens_eq in Hrun. cbn zeta in Hrun.
  destruct (retrieveTokens_frame env w) as (Hst & Hlog & _).
  assert (Hframe : forall e0,
             (inl e0 : Result JsValue,
              with_refresh_call (snd (AuthTokenService.retrieveTokens env w))) = (inl e, w') ->
             net_log w' = net_log w /\ secure_store w' = secure_store w).
  { intros e0 [= _ <-]. cbn. now split. }
  destruct (fst (AuthTokenService.retrieveTokens env w)) as [e0|[tokens|]]; eauto.
  destruct (truthy (refreshToken tokens)) as [rt|]; eauto.
  destruct (truthy (_clientId w)) as [cid|]; eauto.
  destruct (truthy (_tokenEndpoint w)) as [ep|]; eauto.
  exfalso. revert Hpre.
  destruct (network env _ _) as [response|].
  - destruct (ok response).
    + unfold json, bind at 1 in Hrun.
      destruct (body_json response) as [tr|]; cbn in Hrun.
      * unfold bind in Hrun.
        destruct (AuthTokenService.storeTokens env tr _) as [[e1|[]] w1] eqn:Hsto;
          [|discriminate].
        injection Hrun as <- _. eapply storeTokens_error, Hsto.
      * injection Hrun as <- _. now apply not_precondition_error.
    + unfold bind at 1 in Hrun.
      destruct (AuthTokenService.removeTokens env _) as [[e1|[]] w1] eqn:Hrm.
      * injection Hrun as <- _. eapply removeTokens_error, Hrm.
      * cbn in Hrun. injection Hrun as <- _. apply not_precondition_error.
        cbn. repeat split; discriminate.
  - injection Hrun as <- _. now apply not_precondition_error.
Qed.

(** C2, as the code has it: a [refreshTokens] called while the client id or
    the token endpoint is unset always throws and sends nothing; the error is
    of the NotInitializedError class exactly when the stored tokens were
    retrieved and hold a non-empty refresh token, and it is the error for the
    missing tokens or the missing refresh token otherwise. *)
Theorem refreshTokens_before_init_throws (w : World) :
  truthy (_clientId w) = None \/ truthy (_tokenEndpoint w) = None ->
  exists e w',
    AuthTokenService.refreshTokens env w = (inl e, w')
    /\ net_log w' = net_log w
    /\ (if some_read_raises env w then NoTokensError e
        else match truthy (secure_store w !! REFRESH_TOKEN) with
             | None => NoRefreshTokenError e
             | Some _ => NotInitializedError e
             end).
Proof.
  intros Huninit. rewrite refreshTokens_eq. cbn zeta.
  destruct (retrieveTokens_frame env w) as (_ & Hlog & _).
  rewrite retrieveTokens_result.
  destruct (some_read_raises env w).
  { eexists _, _. split; [reflexivity|]. split; [exact Hlog|reflexivity]. }
  cbn [stored_tokens refreshToken].
  destruct (truthy (secure_store w !! REFRESH_TOKEN)) as [rt|].
  2:{ eexists _, _. split; [reflexivity|]. split; [exact Hlog|reflexivity]. }
  destruct (truthy (_clientId w)) as [cid|].
  2:{ eexists _, _. split; [reflexivity|]. split; [exact Hlog|now left]. }
  destruct (truthy (_tokenEndpoint w)) as [ep|].
  2:{ eexists _, _. split; [reflexivity|]. split; [exact Hlog|now right]. }
  now destruct Huninit.
Qed.

Lemma bind_returns {A B} (m : M A) (k : A -> M B) w b w' :
  bind m k w = (inr b, w') ->
  exists a w1, m w = (inr a, w1) /\ k a w1 = (inr b, w').
Proof.
  unfold bind. destruct (m w) as [[e1|a] w1]; intros H; [discriminate|].
  exists a, w1. now split.
Qed.

Lemma get_prop_string_inv (v : JsValue) (k s : string) (w w' : World) :
  get_prop v k w = (inr (JsString s), w') -> string_prop v k = Some s /\ w' = w.
Proof.
  destruct v as [| | | | | |props]; cbn; try discriminate.
  destruct (assoc k props) as [[]|]; cbn; try discriminate.
  now intros [= -> ->].
Qed.

Lemma setItemAsync_returns (k : string) (v : JsValue) (w w' : World) :
  SecureStore.setItemAsync env k v w = (inr tt, w') -> exists s, v = JsString s.
Proof. destruct v; cbn; try discriminate. eauto. Qed.

(** A [storeTokens] that completes was given an object with the three token
    strings. *)
Lemma storeTokens_inv (tr : JsValue) (w w1 : World) :
  AuthTokenService.storeTokens env tr w = (inr tt, w1) ->
  exists a r i,
    string_prop tr "access_token" = Some a
    /\ string_prop tr "refresh_token" = Some r
    /\ string_prop tr "id_token" = Some i.
Proof.
  unfold AuthTokenService.storeTokens. intros H.
  apply bind_returns in H as (v1 & w2 & Hg1 & H).
  apply bind_returns in H as ([] & w3 & Hs1 & H).
  apply bind_returns in H as (v2 & w4 & Hg2 & H).
  apply bind_returns in H as ([] & w5 & Hs2 & H).
  apply bind_returns in H as (v3 & w6 & Hg3 & Hs3).
  apply setItemAsync_returns in Hs1 as [a ->].
  apply setItemAsync_returns in Hs2 as [r ->].
  apply setItemAsync_returns in Hs3 as [i ->].
  apply get_prop_string_inv in Hg1 as [Ha _].
  apply get_prop_string_inv in Hg2 as [Hr _].
  apply get_prop_string_inv in Hg3 as [Hi _].
  now exists a, r, i.
Qed.

(** A [refreshTokens] that returns left the access token of the response it
    returns in the store. *)
Lemma refreshTokens_returns (w w3 : World) (tr : JsValue) :
  AuthTokenService.refreshTokens env w = (inr tr, w3) ->
  exists a, string_prop tr "access_token" = Some a
            /\ secure_store w3 !! ACCESS_TOKEN = Some a.
Proof.
  rewrite refreshTokens_eq. cbn zeta.
  destruct (fst (AuthTokenService.retrieveTokens env w)) as [e|[tokens|]]; try discriminate.
  destruct (truthy (refreshToken tokens)) as [rt|]; [|discriminate].
  destruct (truthy (_clientId w)) as [cid|]; [|discriminate].
  destruct (truthy (_tokenEndpoint w)) as [ep|]; [|discriminate].
  destruct (network env _ _) as [response|]; [|discriminate].
  destruct (ok response).
  - intros H. apply bind_returns in H as (tr0 & w4 & Hjs & H).
    apply bind_returns in H as ([] & w5 & Hsto & H).
    injection H as -> ->.
    destruct (storeTokens_inv _ _ _ Hsto) as (a & r & i & Ha & Hr & Hi).
    destruct (storeTokens_written env _ _ _ _ _ _ Ha Hr Hi Hsto) as (Hs & _).
    exists a. split; [exact Ha|]. rewrite Hs. unfold ACCESS_TOKEN, REFRESH_TOKEN, ID_TOKEN.
    now rewrite !lookup_insert_ne, lookup_insert_eq by done.
  - intros H. apply bind_returns in H as ([] & w4 & _ & H).
    apply bind_returns in H as (body & w5 & _ & H). discriminate H.
Qed.
End Refresh.

(** ** Frame: what the storage operations leave alone *)
Section Frame.
Variable env : Env.

Lemma store_only_ret {A} (a : A) : store_only (ret a).
Proof. now intros w. Qed.

Lemma store_only_throw {A} (e : Exn) : store_only (@throw A e).
Proof. now intros w. Qed.

Lemma store_only_bind {A B} (m : M A) (k : A -> M B) :
  store_only m -> (forall a, store_only (k a)) -> store_only (bind m k).
Proof.
  intros Hm Hk w. unfold bind. specialize (Hm w).
  destruct (m w) as [[e|a] w1]; cbn in *; [exact Hm|].
  destruct (Hk a w1) as [H1 H2]. destruct Hm as [H3 H4]. split; congruence.
Qed.

Lemma store_only_get_prop (v : JsValue) (k : string) : store_only (get_prop v k).
Proof. destruct v; intros w; now cbn. Qed.

Lemma store_only_setItemAsync (k : string) (v : JsValue) :
  store_only (SecureStore.setItemAsync env k v).
Proof.
  destruct v; intros w; cbn; try easy.
  unfold SecureStore.attempt. now destruct (store_fault env _ _).
Qed.

Lemma store_only_deleteItemAsync (k : string) :
  store_only (SecureStore.deleteItemAsync env k).
Proof.
  intros w. unfold SecureStore.deleteItemAsync, SecureStore.attempt.
  now destruct (store_fault env _ _).
Qed.

Lemma store_only_storeTokens (tr : JsValue) :
  store_only (AuthTokenService.storeTokens env tr).
Proof.
  unfold AuthTokenService.storeTokens.
  repeat (apply store_only_bind; [|intros ?]);
    auto using store_only_get_prop, store_only_setItemAsync.
Qed.

Lemma store_only_removeTokens : store_only (AuthTokenService.removeTokens env).
Proof.
  unfold AuthTokenService.removeTokens.
  repeat (apply store_only_bind; [|intros ?]); auto using store_only_deleteItemAsync.
Qed.

Lemma axios_sent_app (l l' : list NetEvent) :
  axios_sent (l ++ l') = (axios_sent l ++ axios_sent l')%list.
Proof.
  induction l as [|[req|c] l IH]; cbn; [reflexivity|exact IH|now rewrite IH].
Qed.

(** Every [refreshTokens] counts as one refresh and dispatches nothing
    through Axios. *)
Lemma refreshTokens_effects (w : World) :
  refresh_calls (snd (AuthTokenService.refreshTokens env w)) = S (refresh_calls w)
  /\ axios_sent (net_log (snd (AuthTokenService.refreshTokens env w)))
     = axios_sent (net_log w).
Proof.
  rewrite refreshTokens_eq. cbn zeta.
  destruct (retrieveTokens_frame env w) as (_ & Hlog & Hrc & _).
  assert (Hw1 : forall (r : Result JsValue),
             refresh_calls (snd (r, with_refresh_call (snd (AuthTokenService.retrieveTokens env w))))
               = S (refresh_calls w)
             /\ axios_sent (net_log (snd (r, with_refresh_call
                                               (snd (AuthTokenService.retrieveTokens env w)))))
                = axios_sent (net_log w)).
  { intros r. cbn. now rewrite Hlog, Hrc. }
  destruct (fst (AuthTokenService.retrieveTokens env w)) as [e|[tokens|]]; auto.
  destruct (truthy (refreshToken tokens)) as [rt|]; auto.
  destruct (truthy (_clientId w)) as [cid|]; auto.
  destruct (truthy (_tokenEndpoint w)) as [ep|]; auto.
  set (w2 := with_net _ _).
  assert (Hw2 : refresh_calls w2 = S (refresh_calls w)
                /\ axios_sent (net_log w2) = axios_sent (net_log w)).
  { subst w2. cbn. rewrite Hlog, Hrc, axios_sent_app. cbn. now rewrite app_nil_r. }
  destruct Hw2 as [Hrc2 Hlog2].
  assert (Hso : forall (m : M JsValue), store_only m ->
             refresh_calls (snd (m w2)) = S (refresh_calls w)
             /\ axios_sent (net_log (snd (m w2))) = axios_sent (net_log w)).
  { intros m Hm. destruct (Hm w2) as [-> ->]. now split. }
  destruct (network env _ _) as [response|]; [|now split].
  destruct (ok response); apply Hso.
  - apply store_only_bind; [unfold json; destruct (body_json response);
                            auto using @store_only_ret, @store_only_throw|].
    intros tr. apply store_only_bind; [apply store_only_storeTokens|].
    intros _. apply store_only_ret.
  - apply store_only_bind; [apply store_only_removeTokens|].
    intros _. apply store_only_bind; [apply store_only_ret|].
    intros body. apply store_only_throw.
Qed.
End Frame.

Section Gateway.
Variable env : Env.

Lemma getAccessToken_eq (w : World) :
  AuthTokenService.getAccessToken env w = (inr (seen_token env w), after_reads env w).
Proof.
  unfold AuthTokenService.getAccessToken, bind, ret, seen_token, after_reads.
  pose proof (retrieveTokens_result env w) as Hr.
  destruct (AuthTokenService.retrieveTokens env w) as [r w1]. cbn in *. subst r.
  now destruct (some_read_raises env w).
Qed.

Lemma request_onFulfilled_eq (config : AxiosRequestConfig) (w : World) :
  AuthRestService.request_onFulfilled env config w =
  (inr (first_attempt env config w), after_reads env w).
Proof.
  unfold AuthRestService.request_onFulfilled.
  now rewrite (bind_inr _ _ _ _ _ (getAccessToken_eq w)).
Qed.

Lemma after_reads_frame (w : World) :
  net_log (after_reads env w) = net_log w /\
  refresh_calls (after_reads env w) = refresh_calls w /\
  secure_store (after_reads env w) = secure_store w.
Proof. destruct (retrieveTokens_frame env w) as (? & ? & ? & _). auto. Qed.

(** One round of [axiosInstance]: request interceptor, adapter, response
    interceptor. *)
Lemma axiosInstance_eq (fuel : nat) (config : AxiosRequestConfig) (w : World) :
  AuthRestService.axiosInstance env (S fuel) config w =
  let c1 := first_attempt env config w in
  let w2 := after_first_attempt env config w in
  match network env (length (net_log w)) (AuthRestService.net_request c1) with
  | None => Some (inl AuthRestService.undefined_status, w2)
  | Some response =>
      if ok response then Some (inr response, w2)
      else if (status response =? 401)%N && negb (_retry config) then
        match AuthTokenService.refreshTokens env w2 with
        | (inl refreshError, w3) => Some (inl refreshError, w3)
        | (inr _, w3) =>
            AuthRestService.axiosInstance env fuel
              (AuthRestService.with_bearer (set_retry c1 true) (seen_token env w3))
              (after_reads env w3)
        end
      else Some (inl (AxiosError c1 (Some response)), w2)
  end.
Proof.
  cbn [AuthRestService.axiosInstance]. rewrite request_onFulfilled_eq.
  unfold AuthRestService.dispatchRequest, after_first_attempt. cbn zeta.
  destruct (after_reads_frame w) as (-> & _).
  destruct (network env _ _) as [response|]; [|reflexivity].
  destruct (ok response); [reflexivity|].
  unfold AuthRestService.response_onRejected.
  assert (Hretry : _retry (first_attempt env config w) = _retry config).
  { unfold first_attempt, AuthRestService.with_bearer.
    now destruct (truthy (seen_token env w)). }
  rewrite Hretry.
  destruct ((status response =? 401)%N && negb (_retry config)); [|reflexivity].
  unfold AuthRestService.refresh_and_reattach, bind at 1.
  destruct (AuthTokenService.refreshTokens env _) as [[e|tr] w3]; [reflexivity|].
  now rewrite (bind_inr _ _ _ _ _ (getAccessToken_eq w3)).
Qed.
Lemma with_bearer_fields (c : AxiosRequestConfig) (t : option string) :
  _retry (AuthRestService.with_bearer c t) = _retry c
  /\ url (AuthRestService.with_bearer c t) = url c
  /\ method (AuthRestService.with_bearer c t) = method c
  /\ data (AuthRestService.with_bearer c t) = data c.
Proof. unfold AuthRestService.with_bearer. now destruct (truthy t). Qed.

Lemma with_bearer_auth (c : AxiosRequestConfig) (t : string) :
  t <> "" ->
  headers (AuthRestService.with_bearer c (Some t)) !! "Authorization"
  = Some ("Bearer " +:+ t).
Proof.
  intros Ht. unfold AuthRestService.with_bearer, truthy.
  rewrite bool_decide_eq_false_2 by exact Ht. cbn. apply lookup_insert_eq.
Qed.

Lemma with_bearer_other_headers (c : AxiosRequestConfig) (t : option string) (k : string) :
  k <> "Authorization" ->
  headers (AuthRestService.with_bearer c t) !! k = headers c !! k.
Proof.
  intros Hk. unfold AuthRestService.with_bearer.
  destruct (truthy t); [|reflexivity]. cbn. now rewrite lookup_insert_ne.
Qed.

Lemma seen_token_reads_ok (w : World) :
  reads_ok env -> seen_token env w = secure_store w !! ACCESS_TOKEN.
Proof. intros Hr. unfold seen_token, some_read_raises. now rewrite !Hr. Qed.

Lemma after_first_attempt_effects (config : AxiosRequestConfig) (w : World) :
  axios_sent (net_log (after_first_attempt env config w))
    = (axios_sent (net_log w) ++ [first_attempt env config w])%list
  /\ refresh_calls (after_first_attempt env config w) = refresh_calls w
  /\ length (net_log (after_first_attempt env config w)) = S (length (net_log w)).
Proof.
  unfold after_first_attempt. cbn.
  destruct (after_reads_frame w) as (-> & -> & _).
  rewrite axios_sent_app, length_app. cbn. split; [reflexivity|]. split; [reflexivity|lia].
Qed.

Lemma unauthorized_not_ok (response : HttpResponse) :
  status response = 401%N -> ok response = false.
Proof. unfold ok. now intros ->. Qed.

(** A request already marked as retried is dispatched once and settles. *)
Lemma axiosInstance_retried (fuel : nat) (config : AxiosRequestConfig) (w : World) :
  _retry config = true ->
  AuthRestService.axiosInstance env (S fuel) config w =
  Some (settle env (first_attempt env config w) (length (net_log w)),
        after_first_attempt env config w).
Proof.
  intros Hre. rewrite axiosInstance_eq. cbn zeta. unfold settle.
  destruct (network env _ _) as [response|]; [|reflexivity].
  destruct (ok response); [reflexivity|].
  now rewrite Hre, andb_false_r.
Qed.

Ltac single_dispatch H :=
  eexists _, _, [_]; split; [reflexivity|]; split; [exact H|];
  split; [cbn; lia|]; split; [lia|].

(** C5: a request through the gateway (given fuel for its one replay) always
    completes, after at most one [refreshTokens] and at most two dispatches.
    When the request was not yet retried and its first response is 401,
    exactly one refresh is invoked; if that refresh throws nothing is
    replayed, and otherwise the request is replayed exactly once, marked
    retried, with the same url, method, data and other headers and, on a
    store whose reads succeed, with [Authorization] set to ["Bearer "]
    followed by the access token of the refresh response.  A 401 in answer to the replay is the error the caller
    gets, with no further refresh. *)
Theorem gateway_refreshes_once_retries_once
    (fuel : nat) (config : AxiosRequestConfig) (w : World) :
  2 <= fuel ->
  exists r w' sent,
    AuthRestService.axiosInstance env fuel config w = Some (r, w')
    /\ axios_sent (net_log w') = (axios_sent (net_log w) ++ sent)%list
    /\ length sent <= 2
    /\ refresh_calls w' <= S (refresh_calls w)
    /\ forall response,
         _retry config = false ->
         network env (length (net_log w))
           (AuthRestService.net_request (first_attempt env config w)) = Some response ->
         status response = 401%N ->
         refresh_calls w' = S (refresh_calls w)
         /\ match AuthTokenService.refreshTokens env (after_first_attempt env config w) with
            | (inl refreshError, _) =>
                r = inl refreshError /\ sent = [first_attempt env config w]
            | (inr tokenResponse, w3) =>
                exists retry,
                  sent = [first_attempt env config w; retry]
                  /\ _retry retry = true
                  /\ url retry = url config
                  /\ method retry = method config
                  /\ data retry = data config
                  /\ (forall k, k <> "Authorization" ->
                                headers retry !! k = headers config !! k)
                  /\ (reads_ok env ->
                      forall t, string_prop tokenResponse "access_token" = Some t ->
                                t <> "" ->
                      headers retry !! "Authorization" = Some ("Bearer " +:+ t))
                  /\ (forall response2,
                        network env (length (net_log w3)) (AuthRestService.net_request retry)
                          = Some response2 ->
                        status response2 = 401%N ->
                        r = inl (AxiosError retry (Some response2)))
            end.
Proof.
  intros Hfuel. destruct fuel as [|[|fuel]]; [lia|lia|].
  rewrite axiosInstance_eq. cbn zeta.
  destruct (after_first_attempt_effects config w) as (Hsent2 & Hrc2 & Hlen2).
  set (c1 := first_attempt env config w) in *.
  set (w2 := after_first_attempt env config w) in *.
  destruct (network env (length (net_log w)) (AuthRestService.net_request c1))
    as [response|] eqn:Hnet.
  2:{ single_dispatch Hsent2. intros ? _ [=]. }
  destruct (ok response) eqn:Hok.
  { single_dispatch Hsent2. intros ? _ [= <-] Hst.
    apply unauthorized_not_ok in Hst. congruence. }
  destruct ((status response =? 401)%N && negb (_retry config)) eqn:Hcond.
  2:{ single_dispatch Hsent2. intros ? Hre [= <-] Hst.
      rewrite Hre, Hst in Hcond. discriminate. }
  destruct (refreshTokens_effects env w2) as [Hrc3 Hsent3].
  destruct (AuthTokenService.refreshTokens env w2) as [[refreshError|tr] w3] eqn:Href;
    cbn [snd] in Hrc3, Hsent3.
  { exists (inl refreshError), w3, [c1]. split; [reflexivity|].
    split; [now rewrite Hsent3|]. split; [cbn; lia|]. split; [lia|].
    intros _ _ _ _. split; [lia|]. now split. }
  set (c2 := AuthRestService.with_bearer (set_retry c1 true) (seen_token env w3)).
  destruct (with_bearer_fields (set_retry c1 true) (seen_token env w3))
    as (Hr2 & Hu2 & Hm2 & Hd2).
  fold c2 in Hr2, Hu2, Hm2, Hd2. cbn in Hr2, Hu2, Hm2, Hd2.
  rewrite (axiosInstance_retried fuel c2 (after_reads env w3) Hr2).
  destruct (after_first_attempt_effects c2 (after_reads env w3)) as (Hsent5 & Hrc5 & _).
  destruct (after_reads_frame w3) as (Hlog4 & Hrc4 & Hst4).
  set (retry := first_attempt env c2 (after_reads env w3)) in *.
  set (w5 := after_first_attempt env c2 (after_reads env w3)) in *.
  destruct (with_bearer_fields c2 (seen_token env (after_reads env w3)))
    as (Hr1 & Hu1 & Hm1 & Hd1).
  destruct (with_bearer_fields config (seen_token env w)) as (_ & Hu3 & Hm3 & Hd3).
  eexists _, w5, [c1; retry]. split; [reflexivity|].
  split. { rewrite Hsent5, Hlog4, Hsent3, Hsent2, <- app_assoc. reflexivity. }
  split; [cbn; lia|]. split; [lia|].
  intros _ _ _ _. split; [lia|].
  exists retry. split; [reflexivity|].
  split; [subst retry; unfold first_attempt; congruence|].
  split; [subst retry c1; unfold first_attempt in *; congruence|].
  split; [subst retry c1; unfold first_attempt in *; congruence|].
  split; [subst retry c1; unfold first_attempt in *; congruence|].
  split.
  { intros k Hk. subst retry c2 c1. unfold first_attempt.
    rewrite !with_bearer_other_headers by exact Hk. cbn [set_retry headers].
    now rewrite with_bearer_other_headers. }
  split.
  - intros Hreads t Ht Hne. subst retry. unfold first_attempt.
    destruct (refreshTokens_returns env _ _ _ Href) as (a & Ha & Hsa).
    assert (a = t) as -> by congruence.
    rewrite (seen_token_reads_ok _ Hreads), Hst4, Hsa.
    now apply with_bearer_auth.
  - intros response2 Hnet2 Hst2. unfold settle. rewrite Hlog4, Hnet2.
    now rewrite (unauthorized_not_ok _ Hst2).
Qed.

(** The gateway needs fuel for one replay only: any more changes nothing. *)
Lemma axiosInstance_more_fuel (fuel : nat) (config : AxiosRequestConfig) (w : World) :
  2 <= fuel ->
  AuthRestService.axiosInstance env fuel config w
  = AuthRestService.axiosInstance env 2 config w.
Proof.
  intros Hfuel. destruct fuel as [|[|fuel]]; [lia|lia|].
  rewrite !axiosInstance_eq. cbn zeta.
  destruct (network env _ _) as [response|]; [|reflexivity].
  destruct (ok response); [reflexivity|].
  destruct ((status response =? 401)%N && negb (_retry config)); [|reflexivity].
  destruct (AuthTokenService.refreshTokens env _) as [[e|tr] w3]; [reflexivity|].
  destruct (with_bearer_fields (set_retry (first_attempt env config w) true)
              (seen_token env w3)) as (Hre & _).
  cbn in Hre. now rewrite !axiosInstance_retried by exact Hre.
Qed.

(** With room for one replay a request settles, after at most two
    dispatches and one refresh. *)
Lemma axiosInstance_settles (config : AxiosRequestConfig) (w : World) :
  exists r w',
    AuthRestService.axiosInstance env 2 config w = Some (r, w')
    /\ length (axios_sent (net_log w')) <= length (axios_sent (net_log w)) + 2
    /\ refresh_calls w' <= S (refresh_calls w).
Proof.
  rewrite axiosInstance_eq. cbn zeta.
  destruct (after_first_attempt_effects config w) as (Hsent2 & Hrc2 & _).
  assert (Hlen2 : length (axios_sent (net_log (after_first_attempt env config w)))
                  = S (length (axios_sent (net_log w)))).
  { rewrite Hsent2, length_app. cbn. lia. }
  destruct (network env _ _) as [response|].
  2:{ eexists _, _. split; [reflexivity|]. split; lia. }
  destruct (ok response).
  { eexists _, _. split; [reflexivity|]. split; lia. }
  destruct ((status response =? 401)%N && negb (_retry config)).
  2:{ eexists _, _. split; [reflexivity|]. split; lia. }
  destruct (refreshTokens_effects env (after_first_attempt env config w)) as [Hrc3 Hsent3].
  destruct (AuthTokenService.refreshTokens env _) as [[e|tr] w3]; cbn [snd] in Hrc3, Hsent3.
  { eexists _, _. split; [reflexivity|]. rewrite Hsent3. split; lia. }
  destruct (with_bearer_fields (set_retry (first_attempt env config w) true)
              (seen_token env w3)) as (Hre & _).
  cbn in Hre. rewrite (axiosInstance_retried _ _ _ Hre).
  eexists _, _. split; [reflexivity|].
  destruct (after_first_attempt_effects
              (AuthRestService.with_bearer (set_retry (first_attempt env config w) true)
                 (seen_token env w3)) (after_reads env w3)) as (-> & -> & _).
  destruct (after_reads_frame w3) as (-> & -> & _).
  rewrite length_app, Hsent3. cbn [length]. split; lia.
Qed.

(** Every request through the gateway settles: its promise resolves or
    rejects, with one outcome whatever room the replay is given beyond one
    round, after at most two dispatches and at most one [refreshTokens].
    The [_retry] mark alone bounds the interceptor's re-entry. *)
Theorem gateway_request_settles (config : AxiosRequestConfig) (w : World) :
  exists r w',
    (forall fuel, AuthRestService.axiosInstance env (2 + fuel) config w = Some (r, w'))
    /\ length (axios_sent (net_log w')) <= length (axios_sent (net_log w)) + 2
    /\ refresh_calls w' <= S (refresh_calls w).
Proof.
  destruct (axiosInstance_settles config w) as (r & w' & Hrun & Hbound).
  exists r, w'. split; [|exact Hbound].
  intros fuel. rewrite axiosInstance_more_fuel by lia. exact Hrun.
Qed.
End Gateway.

(** ** The session controller and the coordinator's logout *)
Section Session.
Variable env : Env.

(** [requestAccessToken] never throws, and returns [null] when discovery or
    config are missing, when the request gets no response, and when the body
    of the response is not JSON. *)
Lemma requestAccessToken_soft_fail (authorizationCode codeVerifier : string) (w : World) :
  exists v w',
    AuthService.requestAccessToken env authorizationCode codeVerifier w = (inr v, w')
    /\ (_discovery w = None \/ _config w = None -> v = JsNull)
    /\ (forall discovery config,
          _discovery w = Some discovery -> _config w = Some config ->
          match network env (length (net_log w))
                  (AuthService.exchange_request discovery config authorizationCode
                     codeVerifier) with
          | None => v = JsNull
          | Some response =>
              match body_json response with
              | None => v = JsNull
              | Some tokenResponse => v = tokenResponse
              end
          end).
Proof.
  unfold AuthService.requestAccessToken, try_catch.
  destruct (_discovery w) as [discovery|].
  2:{ eexists _, _. split; [reflexivity|]. split; [reflexivity|]. intros ? ? [=]. }
  destruct (_config w) as [config|].
  2:{ eexists _, _. split; [reflexivity|]. split; [reflexivity|]. intros ? ? _ [=]. }
  unfold bind at 1, fetch.
  destruct (network env _ _) as [response|] eqn:Hnet.
  - unfold json, bind. destruct (body_json response) as [tr|] eqn:Hjs; cbn.
    + eexists _, _. split; [reflexivity|]. split; [now intros [[=]|[=]]|].
      intros ? ? [= <-] [= <-]. now rewrite Hnet, Hjs.
    + eexists _, _. split; [reflexivity|]. split; [reflexivity|].
      intros ? ? [= <-] [= <-]. now rewrite Hnet, Hjs.
  - cbn. eexists _, _. split; [reflexivity|]. split; [reflexivity|].
    intros ? ? [= <-] [= <-]. now rewrite Hnet.
Qed.

(** [logout] never throws; when [endSession] throws, it hands the error back
    in a failure result and leaves the world as [endSession] left it: the
    stored tokens and [isAuthenticated] are as before the call. *)
Lemma logout_endSession_failure (w w1 : World) (e : Exn) :
  AuthService.endSession env w = (inl e, w1) ->
  AuthProvider.logout env w = (inr (LogoutFailure e), w1).
Proof.
  intros He. unfold AuthProvider.logout, try_catch.
  now rewrite (bind_inl _ _ _ _ _ He).
Qed.

Lemma logout_total (w : World) :
  exists r w', AuthProvider.logout env w = (inr r, w').
Proof.
  unfold AuthProvider.logout, try_catch.
  destruct (bind _ _ w) as [[e|r] w1]; cbn; eauto.
Qed.
End Session.

(** ** Evaluations *)

(** C3, on the code: with a session stored and an end-session endpoint that
    answers 400, [logout] returns the failure result that holds the error of
    [endSession], but the three tokens are still stored and
    [isAuthenticated] is still [true]. *)
Theorem logout_endSession_400_keeps_session :
  fst (AuthProvider.logout (always invalid_grant) (running_world session_store))
    = inr (LogoutFailure
             (Error (AuthService.end_session_failed_message invalid_grant
                       (body_text invalid_grant))))
  /\ stored_tokens
       (snd (AuthProvider.logout (always invalid_grant) (running_world session_store)))
     = {| accessToken := Some "a1"; refreshToken := Some "r1"; idToken := Some "i1" |}
  /\ isAuthenticated
       (snd (AuthProvider.logout (always invalid_grant) (running_world session_store)))
     = true.
Proof. vm_compute. repeat split. Qed.

(** C4, on the code: when the token endpoint answers the code exchange with
    400 and a JSON error body, [requestAccessToken] returns that parsed body,
    which is not [null]. *)
Theorem requestAccessToken_non2xx_returns_body :
  ok invalid_grant = false
  /\ fst (AuthService.requestAccessToken (always invalid_grant) "code" "verifier"
            (running_world session_store))
     = inr (JsObject [("error", JsString "invalid_grant")])
  /\ JsObject [("error", JsString "invalid_grant")] <> JsNull.
Proof. split; [reflexivity|]. split; [reflexivity|discriminate]. Qed.

(** C6, on the code: a request that gets no response is rejected by the
    adapter with an Axios error that holds no response; what the caller of
    the gateway gets is the [TypeError] of reading [error.response.status]. *)
Theorem gateway_network_error_masked :
  fst (AuthRestService.dispatchRequest offline
         (first_attempt offline get_data (running_world session_store))
         (after_reads offline (running_world session_store)))
    = inl (AxiosError (first_attempt offline get_data (running_world session_store)) None)
  /\ option_map fst
       (AuthRestService.axiosInstance offline 2 get_data (running_world session_store))
     = Some (inl (TypeError "Cannot read properties of undefined (reading 'status')")).
Proof. split; reflexivity. Qed.

(** ** Errors through the gateway *)
Section GatewayErrors.
Variable env : Env.

(** An HTTP error that is not a first-time 401 reaches the caller as the
    adapter raised it. *)
Lemma gateway_http_error_propagates
    (fuel : nat) (config : AxiosRequestConfig) (w : World) (response : HttpResponse) :
  network env (length (net_log w))
    (AuthRestService.net_request (first_attempt env config w)) = Some response ->
  ok response = false ->
  status response <> 401%N \/ _retry config = true ->
  AuthRestService.axiosInstance env (S fuel) config w =
  Some (inl (AxiosError (first_attempt env config w) (Some response)),
        after_first_attempt env config w).
Proof.
  intros Hnet Hok Hother. rewrite axiosInstance_eq. cbn zeta. rewrite Hnet, Hok.
  destruct Hother as [Hst| ->]; [|now rewrite andb_false_r].
  now apply N.eqb_neq in Hst as ->.
Qed.

(** When the refresh of the 401 path throws, the caller gets that error. *)
Lemma gateway_refresh_error_propagates
    (fuel : nat) (config : AxiosRequestConfig) (w w3 : World) (response : HttpResponse)
    (refreshError : Exn) :
  _retry config = false ->
  network env (length (net_log w))
    (AuthRestService.net_request (first_attempt env config w)) = Some response ->
  status response = 401%N ->
  AuthTokenService.refreshTokens env (after_first_attempt env config w)
    = (inl refreshError, w3) ->
  AuthRestService.axiosInstance env (S fuel) config w = Some (inl refreshError, w3).
Proof.
  intros Hre Hnet Hst Href. rewrite axiosInstance_eq. cbn zeta.
  rewrite Hnet, (unauthorized_not_ok _ Hst), Hst, Hre, Href. reflexivity.
Qed.
End GatewayErrors.

(** ** Instances *)

Lemma refreshTokens_non2xx_witness :
  exists e w',
    AuthTokenService.refreshTokens (always invalid_grant) (running_world session_store)
      = (inl e, w')
    /\ RefreshFailedError e invalid_grant
    /\ secure_store w' !! ACCESS_TOKEN = None
    /\ secure_store w' !! REFRESH_TOKEN = None
    /\ secure_store w' !! ID_TOKEN = None.
Proof.
  destruct (refreshTokens_non2xx_clears_and_throws (always invalid_grant)
              (running_world session_store)
              {| accessToken := Some "a1"; refreshToken := Some "r1"; idToken := Some "i1" |}
              "r1" "app" "https://kc/token" invalid_grant)
    as (e & w' & H1 & H2 & _ & H3 & H4 & H5);
    [vm_compute; reflexivity|reflexivity|reflexivity|reflexivity|reflexivity|reflexivity| |].
  - intros n k. reflexivity.
  - exists e, w'. repeat split; assumption.
Defined.

Lemma refreshTokens_2xx_witness :
  exists w',
    AuthTokenService.refreshTokens (always new_tokens) (running_world session_store)
      = (inr (JsObject [("access_token", JsString "a2"); ("refresh_token", JsString "r2");
                        ("id_token", JsString "i2")]), w')
    /\ stored_tokens w' =
         {| accessToken := Some "a2"; refreshToken := Some "r2"; idToken := Some "i2" |}.
Proof.
  destruct (refreshTokens_2xx_overwrites_and_returns (always new_tokens)
              (running_world session_store)
              {| accessToken := Some "a1"; refreshToken := Some "r1"; idToken := Some "i1" |}
              "r1" "app" "https://kc/token" new_tokens
              (JsObject [("access_token", JsString "a2"); ("refresh_token", JsString "r2");
                         ("id_token", JsString "i2")]) "a2" "r2" "i2")
    as (w' & H1 & _ & H2);
    [vm_compute; reflexivity|reflexivity|reflexivity|reflexivity|reflexivity|reflexivity
    |reflexivity|reflexivity|reflexivity|reflexivity| |].
  - intros n k v. reflexivity.
  - exists w'. split; assumption.
Defined.

Lemma refreshTokens_precondition_error_witness :
  net_log (snd (AuthTokenService.refreshTokens (always new_tokens) (fresh_world session_store)))
    = []
  /\ stored_tokens
       (snd (AuthTokenService.refreshTokens (always new_tokens) (fresh_world session_store)))
     = {| accessToken := Some "a1"; refreshToken := Some "r1"; idToken := Some "i1" |}.
Proof.
  destruct (refreshTokens_precondition_error_frame (always new_tokens)
              (fresh_world session_store)
              (snd (AuthTokenService.refreshTokens (always new_tokens)
                      (fresh_world session_store)))
              (Error "No client ID found"))
    as (H1 & _ & H2).
  - vm_compute. reflexivity.
  - right. right. left. reflexivity.
  - split; [exact H1|exact H2].
Defined.

Lemma refreshTokens_before_init_witness :
  exists e w',
    AuthTokenService.refreshTokens (always new_tokens) (fresh_world session_store)
      = (inl e, w')
    /\ NotInitializedError e.
Proof.
  destruct (refreshTokens_before_init_throws (always new_tokens) (fresh_world session_store))
    as (e & w' & H1 & _ & H2).
  - left. reflexivity.
  - exists e, w'. split; [exact H1|exact H2].
Defined.

(** C2 as stated fails: before [init], on an empty store, [refreshTokens]
    throws the error for the missing refresh token, which is not of the
    NotInitializedError class. *)
Lemma refreshTokens_before_init_empty_store :
  _clientId (fresh_world ∅) = None
  /\ _tokenEndpoint (fresh_world ∅) = None
  /\ fst (AuthTokenService.refreshTokens (always new_tokens) (fresh_world ∅))
     = inl (Error "No refresh token found")
  /\ ~ NotInitializedError (Error "No refresh token found").
Proof.
  split; [reflexivity|]. split; [reflexivity|]. split; [reflexivity|].
  intros [H|H]; discriminate H.
Qed.

Lemma storeTokens_retrieveTokens_roundtrip_witness :
  fst (AuthTokenService.retrieveTokens (always new_tokens)
         (snd (AuthTokenService.storeTokens (always new_tokens)
                 (JsObject [("access_token", JsString "a2"); ("refresh_token", JsString "r2");
                            ("id_token", JsString "i2")])
                 (fresh_world session_store))))
  = inr (Some {| accessToken := Some "a2"; refreshToken := Some "r2"; idToken := Some "i2" |}).
Proof.
  apply (storeTokens_retrieveTokens_roundtrip (always new_tokens)
           (JsObject [("access_token", JsString "a2"); ("refresh_token", JsString "r2");
                      ("id_token", JsString "i2")]) "a2" "r2" "i2"
           (fresh_world session_store)); vm_compute; reflexivity.
Defined.

Lemma gateway_refreshes_once_retries_once_witness :
  exists r w' retry,
    AuthRestService.axiosInstance expired_once 2 get_data (running_world session_store)
      = Some (r, w')
    /\ refresh_calls w' = 1
    /\ axios_sent (net_log w')
       = [first_attempt expired_once get_data (running_world session_store); retry]
    /\ _retry retry = true
    /\ url retry = "/api/data"
    /\ method retry = "get"
    /\ headers retry !! "Authorization" = Some "Bearer a2".
Proof.
  destruct (gateway_refreshes_once_retries_once expired_once 2 get_data
              (running_world session_store))
    as (r & w' & sent & Hrun & Hsent & _ & _ & H401); [lia|].
  destruct (H401 unauthorized) as [Hcalls Hreplay].
  - reflexivity.
  - vm_compute. reflexivity.
  - reflexivity.
  - destruct (AuthTokenService.refreshTokens expired_once
                (after_first_attempt expired_once get_data (running_world session_store)))
      as [[refreshError|tokenResponse] w3] eqn:Href.
    + vm_compute in Href. discriminate Href.
    + destruct Hreplay as (retry & -> & Hretry & Hurl & Hmethod & _ & _ & Hbearer & _).
      exists r, w', retry.
      split; [exact Hrun|]. split; [exact Hcalls|]. split; [exact Hsent|].
      split; [exact Hretry|]. split; [exact Hurl|]. split; [exact Hmethod|].
      apply (Hbearer (fun _ _ => eq_refl) "a2"); [|discriminate].
      vm_compute in Href. injection Href as <- _. reflexivity.
Defined.

Lemma gateway_http_error_propagates_witness :
  option_map fst
    (AuthRestService.axiosInstance (always invalid_grant) 1 get_data
       (running_world session_store))
  = Some (inl (AxiosError
                 (set_header get_data "Authorization" "Bearer a1") (Some invalid_grant))).
Proof.
  rewrite (gateway_http_error_propagates (always invalid_grant) 0 get_data
             (running_world session_store) invalid_grant);
    [reflexivity|vm_compute; reflexivity|reflexivity|left; discriminate].
Defined.

Lemma gateway_refresh_error_propagates_witness :
  option_map fst
    (AuthRestService.axiosInstance (always unauthorized) 1 get_data
       (running_world session_store))
  = Some (inl (Error (AuthTokenService.refresh_failed_message unauthorized ""))).
Proof.
  rewrite (gateway_refresh_error_propagates (always unauthorized) 0 get_data
             (running_world session_store)
             (snd (AuthTokenService.refreshTokens (always unauthorized)
                     (after_first_attempt (always unauthorized) get_data
                        (running_world session_store))))
             unauthorized
             (Error (AuthTokenService.refresh_failed_message unauthorized "")));
    vm_compute; reflexivity.
Defined.

Lemma logout_endSession_failure_witness :
  exists w1,
    AuthProvider.logout (always invalid_grant) (running_world session_store)
    = (inr (LogoutFailure
              (Error (AuthService.end_session_failed_message invalid_grant
                        (body_text invalid_grant)))), w1).
Proof.
  eexists.
  apply (logout_endSession_failure (always invalid_grant) (running_world session_store)).
  vm_compute. reflexivity.
Defined.

(** ** Scenarios of the gateway, evaluated *)

(** A request answered 401 once: one refresh, one replay carrying the new
    access token, and the caller gets the response to the replay. *)
Example gateway_401_then_200 :
  match AuthRestService.axiosInstance expired_once 2 get_data
          (running_world session_store) with
  | Some (r, w') =>
      r = inr api_data
      /\ refresh_calls w' = 1
      /\ map (fun c => (_retry c, headers c !! "Authorization"))
           (axios_sent (net_log w'))
         = [(false, Some "Bearer a1"); (true, Some "Bearer a2")]
  | None => False
  end.
Proof. vm_compute. repeat split. Qed.

(** A request answered 401 twice: the second 401 reaches the caller after
    one refresh and one replay. *)
Example gateway_401_twice :
  match AuthRestService.axiosInstance expired_twice 2 get_data
          (running_world session_store) with
  | Some (r, w') =>
      r = inl (AxiosError
                 (set_header (set_retry get_data true) "Authorization" "Bearer a2")
                 (Some unauthorized))
      /\ refresh_calls w' = 1
      /\ length (axios_sent (net_log w')) = 2
  | None => False
  end.
Proof. vm_compute. repeat split. Qed.

(** ** What the token operations leave alone *)
Section TokenFrame.
Variable env : Env.

Lemma token_frame_refl (w : World) : token_frame w w.
Proof. unfold token_frame. auto 10. Qed.

Lemma token_frame_trans (w1 w2 w3 : World) :
  token_frame w1 w2 -> token_frame w2 w3 -> token_frame w1 w3.
Proof.
  unfold token_frame. intros (H1 & H2 & H3 & H4 & H5 & H6) (K1 & K2 & K3 & K4 & K5 & K6).
  split; [|repeat split; congruence].
  intros k Ha Hr Hi. now rewrite K1, H1.
Qed.

Lemma frames_ret {A} (a : A) : frames (ret a).
Proof. intros w. apply token_frame_refl. Qed.

Lemma frames_throw {A} (e : Exn) : frames (@throw A e).
Proof. intros w. apply token_frame_refl. Qed.

Lemma frames_bind {A B} (m : M A) (k : A -> M B) :
  frames m -> (forall a, frames (k a)) -> frames (bind m k).
Proof.
  intros Hm Hk w. unfold bind. specialize (Hm w).
  destruct (m w) as [[e|a] w1]; cbn in *; [exact Hm|].
  eapply token_frame_trans; [exact Hm|apply Hk].
Qed.

Lemma frames_try_catch {A} (m : M A) (h : Exn -> M A) :
  frames m -> (forall e, frames (h e)) -> frames (try_catch m h).
Proof.
  intros Hm Hh w. unfold try_catch. specialize (Hm w).
  destruct (m w) as [[e|a] w1]; cbn in *; [|exact Hm].
  eapply token_frame_trans; [exact Hm|apply Hh].
Qed.

Lemma token_frame_with_store (w : World) (s : gmap string string) :
  (forall k, k <> ACCESS_TOKEN -> k <> REFRESH_TOKEN -> k <> ID_TOKEN ->
             s !! k = secure_store w !! k) ->
  token_frame w (with_store w s).
Proof. intros Hs. unfold token_frame. cbn. auto 10. Qed.

Lemma frames_attempt {A} (op : StoreOp) (a : A) (f : gmap string string -> gmap string string) :
  (forall s k, k <> ACCESS_TOKEN -> k <> REFRESH_TOKEN -> k <> ID_TOKEN ->
               f s !! k = s !! k) ->
  frames (SecureStore.attempt env op (fun w => (inr a, with_store w (f (secure_store w))))).
Proof.
  intros Hf w. unfold SecureStore.attempt.
  destruct (store_fault env _ _); cbn; apply token_frame_with_store; auto.
Qed.

Lemma frames_getItemAsync (key : string) : frames (SecureStore.getItemAsync env key).
Proof.
  intros w. unfold SecureStore.getItemAsync, SecureStore.attempt.
  destruct (store_fault env _ _); cbn; apply token_frame_with_store; auto.
Qed.

Lemma frames_setItemAsync (key : string) (v : JsValue) :
  token_key key -> frames (SecureStore.setItemAsync env key v).
Proof.
  intros Hkey. destruct v as [| | | |s| |]; try apply frames_throw. cbn.
  apply (frames_attempt _ tt (fun m => <[key := s]> m)).
  intros m k Ha Hr Hi. apply lookup_insert_ne. destruct Hkey as [-> | [-> | ->]]; congruence.
Qed.

Lemma frames_deleteItemAsync (key : string) :
  token_key key -> frames (SecureStore.deleteItemAsync env key).
Proof.
  intros Hkey. apply (frames_attempt _ tt (fun m => delete key m)).
  intros m k Ha Hr Hi. apply lookup_delete_ne. destruct Hkey as [-> | [-> | ->]]; congruence.
Qed.

Lemma frames_get_prop (v : JsValue) (k : string) : frames (get_prop v k).
Proof. destruct v; cbn; first [apply frames_throw|apply frames_ret]. Qed.

Lemma frames_fetch (req : NetRequest) : frames (fetch env req).
Proof.
  intros w. unfold fetch. destruct (network env _ _); cbn; unfold token_frame; cbn; auto 10.
Qed.

Lemma frames_json (r : HttpResponse) : frames (json r).
Proof. unfold json. destruct (body_json r); [apply frames_ret|apply frames_throw]. Qed.

Lemma frames_storeTokens (tr : JsValue) : frames (AuthTokenService.storeTokens env tr).
Proof.
  unfold AuthTokenService.storeTokens, token_key.
  repeat (apply frames_bind; [|intros ?]);
    first [apply frames_get_prop | apply frames_setItemAsync; unfold token_key; auto].
Qed.

Lemma frames_removeTokens : frames (AuthTokenService.removeTokens env).
Proof.
  unfold AuthTokenService.removeTokens.
  repeat (apply frames_bind; [|intros ?]);
    apply frames_deleteItemAsync; unfold token_key; auto.
Qed.

Lemma frames_retrieveTokens : frames (AuthTokenService.retrieveTokens env).
Proof.
  unfold AuthTokenService.retrieveTokens.
  apply frames_try_catch; [|intros; apply frames_ret].
  repeat (apply frames_bind; [apply frames_getItemAsync|intros ?]). apply frames_ret.
Qed.

Lemma frames_refreshTokens : frames (AuthTokenService.refreshTokens env).
Proof.
  intros w. rewrite refreshTokens_eq. cbn zeta.
  assert (H1 : token_frame w
                 (with_refresh_call (snd (AuthTokenService.retrieveTokens env w)))).
  { eapply token_frame_trans; [apply frames_retrieveTokens|].
    unfold token_frame. cbn. auto 10. }
  destruct (fst (AuthTokenService.retrieveTokens env w)) as [e|[tokens|]]; try exact H1.
  destruct (truthy (refreshToken tokens)) as [rt|]; [|exact H1].
  destruct (truthy (_clientId w)) as [cid|]; [|exact H1].
  destruct (truthy (_tokenEndpoint w)) as [ep|]; [|exact H1].
  set (w2 := with_net _ _).
  assert (H2 : token_frame w w2).
  { eapply token_frame_trans; [exact H1|]. subst w2. unfold token_frame. cbn. auto 10. }
  destruct (network env _ _) as [response|]; [|exact H2].
  destruct (ok response); (eapply token_frame_trans; [exact H2|]).
  - apply (frames_bind (json response)); [apply frames_json|].
    intros tr. apply frames_bind; [apply frames_storeTokens|intros; apply frames_ret].
  - apply (frames_bind (AuthTokenService.removeTokens env)); [apply frames_removeTokens|].
    intros _. apply frames_bind; [apply frames_ret|intros; apply frames_throw].
Qed.

(** Whatever they are given and however they end, [storeTokens],
    [removeTokens] and [refreshTokens] change nothing in the store but the
    three token keys, and leave the configuration of the services and
    [isAuthenticated] alone. *)
Theorem token_operations_frame (tr : JsValue) (w : World) :
  token_frame w (snd (AuthTokenService.storeTokens env tr w))
  /\ token_frame w (snd (AuthTokenService.removeTokens env w))
  /\ token_frame w (snd (AuthTokenService.refreshTokens env w)).
Proof.
  split; [apply frames_storeTokens|]. split; [apply frames_removeTokens|].
  apply frames_refreshTokens.
Qed.
End TokenFrame.

(** ** More on the token service *)
Section TokenService.
Variable env : Env.

Lemma storeTokens_needs_token (tr : JsValue) (w : World) :
  string_prop tr "access_token" = None ->
  exists e, AuthTokenService.storeTokens env tr w = (inl e, w).
Proof.
  intros Ha. unfold AuthTokenService.storeTokens, bind.
  destruct tr as [| | | | | |props]; cbn; eauto.
  cbn in Ha. destruct (assoc "access_token" props) as [[]|]; cbn; eauto.
  discriminate Ha.
Qed.

(** A token response without an [access_token] string makes [storeTokens]
    throw before it touches the store: the world is as it was, whatever the
    response holds besides. *)
Theorem storeTokens_needs_access_token (tr : JsValue) (w : World) :
  string_prop tr "access_token" = None ->
  exists e,
    AuthTokenService.storeTokens env tr w = (inl e, w)
    /\ (e = invalid_value \/ exists m, e = TypeError m).
Proof.
  intros Ha. unfold AuthTokenService.storeTokens, bind, invalid_value.
  destruct tr as [| | | | | |props]; cbn; eauto.
  cbn in Ha. destruct (assoc "access_token" props) as [[]|]; cbn; eauto.
  discriminate Ha.
Qed.

(** [storeTokens] is not atomic: given a response with an [access_token]
    string but no [refresh_token] string, it overwrites the stored access
    token and then throws, leaving the other two entries as they were. *)
Theorem storeTokens_partial_write (tr : JsValue) (a : string) (w : World) :
  string_prop tr "access_token" = Some a ->
  string_prop tr "refresh_token" = None ->
  store_fault env (store_ops w) (OpSet ACCESS_TOKEN a) = false ->
  exists w',
    AuthTokenService.storeTokens env tr w = (inl invalid_value, w')
    /\ secure_store w' = <[ACCESS_TOKEN := a]> (secure_store w).
Proof.
  intros Ha Hr Hw. unfold AuthTokenService.storeTokens.
  rewrite (bind_inr _ _ _ _ _ (get_prop_string _ _ _ w Ha)).
  unfold bind at 1. cbn [SecureStore.setItemAsync]. unfold SecureStore.attempt at 1.
  rewrite Hw.
  destruct tr as [| | | | | |props]; try discriminate Ha.
  unfold bind, get_prop, ret. cbn in Hr.
  destruct (assoc "refresh_token" props) as [[]|]; cbn; try discriminate Hr; eauto.
Qed.

(** When its preconditions hold, [refreshTokens] sends exactly one request,
    whatever comes back: a form-encoded POST to the token endpoint with the
    grant type, the client id and the stored refresh token. *)
Theorem refreshTokens_posts_refresh_token (w : World) (rt cid ep : string) :
  some_read_raises env w = false ->
  truthy (secure_store w !! REFRESH_TOKEN) = Some rt ->
  truthy (_clientId w) = Some cid ->
  truthy (_tokenEndpoint w) = Some ep ->
  net_log (snd (AuthTokenService.refreshTokens env w)) =
  (net_log w ++
   [EvFetch {| req_method := "POST"; req_url := ep;
               req_headers := {[ "Content-Type" := "application/x-www-form-urlencoded" ]};
               req_body := FormBody [("grant_type", "refresh_token"); ("client_id", cid);
                                     ("refresh_token", rt)] |}])%list.
Proof.
  intros Hrd Hrt Hcid Hep. rewrite refreshTokens_eq. cbn zeta.
  rewrite retrieveTokens_result, Hrd. cbn [stored_tokens refreshToken].
  rewrite Hrt, Hcid, Hep.
  destruct (retrieveTokens_frame env w) as (_ & Hlog & _).
  set (w2 := with_net _ _).
  assert (H2 : net_log w2 = (net_log w ++ [EvFetch (AuthTokenService.refresh_request ep cid rt)])%list).
  { subst w2. cbn. now rewrite Hlog. }
  assert (Hso : forall (m : M JsValue), store_only m -> net_log (snd (m w2)) = net_log w2).
  { intros m Hm. apply Hm. }
  destruct (network env _ _) as [response|]; [|exact H2].
  destruct (ok response); rewrite Hso; try exact H2.
  - apply store_only_bind; [unfold json; destruct (body_json response);
                            auto using @store_only_ret, @store_only_throw|].
    intros tr. apply store_only_bind; [apply store_only_storeTokens|].
    intros _. apply store_only_ret.
  - apply store_only_bind; [apply store_only_removeTokens|].
    intros _. apply store_only_bind; [apply store_only_ret|].
    intros body. apply store_only_throw.
Qed.

(** After [init] with a client id and a token endpoint that are not empty,
    no [refreshTokens] fails for lack of initialisation. *)
Theorem init_enables_refreshTokens (ep cid : string) (w w' : World) (e : Exn) :
  ep <> "" -> cid <> "" ->
  AuthTokenService.refreshTokens env (snd (AuthTokenService.init ep cid w)) = (inl e, w') ->
  ~ NotInitializedError e.
Proof.
  intros Hep Hcid Hrun Hni.
  assert (Hpre : precondition_error e) by (right; right; exact Hni).
  rewrite refreshTokens_eq in Hrun. cbn zeta in Hrun.
  cbn [AuthTokenService.init snd _clientId _tokenEndpoint with_token_service truthy] in Hrun.
  rewrite !bool_decide_eq_false_2 in Hrun by assumption.
  rewrite retrieveTokens_result in Hrun.
  destruct (some_read_raises env _).
  { injection Hrun as <- _. destruct Hni as [H|H]; discriminate H. }
  destruct (truthy (refreshToken (stored_tokens _))) as [rt|].
  2:{ injection Hrun as <- _. destruct Hni as [H|H]; discriminate H. }
  revert Hpre. destruct (network env _ _) as [response|].
  - destruct (ok response).
    + apply bind_throws in Hrun as [Hrun|(tr & w1 & _ & Hrun)].
      { unfold json in Hrun. destruct (body_json response); [discriminate|].
        injection Hrun as <- _. now apply not_precondition_error. }
      apply bind_throws in Hrun as [Hrun|(? & ? & _ & Hrun)]; [|discriminate].
      eapply storeTokens_error, Hrun.
    + apply bind_throws in Hrun as [Hrun|(? & w1 & _ & Hrun)].
      { eapply removeTokens_error, Hrun. }
      cbn in Hrun. injection Hrun as <- _. apply not_precondition_error.
      cbn. repeat split; discriminate.
  - injection Hrun as <- _. now apply not_precondition_error.
Qed.

(** [decodeAccessToken] never throws and changes nothing but the count of
    storage operations: it returns [null] when a read raises, when no access
    token is stored and when the stored one does not decode, and the decoded
    claims otherwise. *)
Theorem decodeAccessToken_result (jwtDecode : string -> option JsValue) (w : World) :
  AuthTokenService.decodeAccessToken env jwtDecode w =
  (inr (if some_read_raises env w then JsNull
        else match secure_store w !! ACCESS_TOKEN with
             | None => JsNull
             | Some token => default JsNull (jwtDecode token)
             end),
   snd (AuthTokenService.retrieveTokens env w)).
Proof.
  unfold AuthTokenService.decodeAccessToken, bind.
  pose proof (retrieveTokens_result env w) as Hr.
  destruct (AuthTokenService.retrieveTokens env w) as [r w1]. cbn in Hr. subst r.
  destruct (some_read_raises env w); [reflexivity|]. cbn.
  destruct (secure_store w !! ACCESS_TOKEN) as [token|]; [|reflexivity]. cbn.
  unfold try_catch, jwt_decode. now destruct (jwtDecode token).
Qed.
End TokenService.

(** ** More on the session controller and on logout *)
Section SessionController.
Variable env : Env.

(** [endSession], one case per path through it. *)
Lemma endSession_eq (w : World) :
  AuthService.endSession env w =
  let w1 := after_reads env w in
  match _discovery w, _config w with
  | None, _ => (inl (Error "No discovery found"), w1)
  | Some _, None => (inl (Error "No config found"), w1)
  | Some discovery, Some config =>
      if some_read_raises env w then (inl (Error "No tokens found"), w1)
      else
        match truthy (secure_store w !! REFRESH_TOKEN) with
        | None => (inl (Error "No refresh token found"), w1)
        | Some rt =>
            let req := AuthService.end_session_request discovery config rt in
            (match network env (length (net_log w)) req with
             | None => inl (NetworkError req)
             | Some response =>
                 if ok response then inr tt
                 else inl (Error (AuthService.end_session_failed_message response
                                    (body_text response)))
             end,
             with_net w1 (EvFetch req))
        end
  end.
Proof.
  unfold AuthService.endSession, bind at 1, after_reads.
  pose proof (retrieveTokens_result env w) as Hr.
  destruct (retrieveTokens_frame env w) as (_ & Hlog & _ & _ & _ & Hd & Hc & _).
  destruct (AuthTokenService.retrieveTokens env w) as [r w1]. cbn in Hr, Hlog, Hd, Hc.
  subst r. cbn zeta. cbn [snd]. rewrite Hd, Hc.
  destruct (_discovery w) as [discovery|]; [|reflexivity].
  destruct (_config w) as [config|]; [|reflexivity]. cbn [isDef negb].
  destruct (some_read_raises env w); [reflexivity|]. cbn [isDef negb].
  change (Some (stored_tokens w) ≫= refreshToken) with (secure_store w !! REFRESH_TOKEN).
  destruct (truthy (secure_store w !! REFRESH_TOKEN)) as [rt|]; [|reflexivity].
  unfold bind, fetch. rewrite Hlog.
  destruct (network env _ _) as [response|]; [|reflexivity].
  now destruct (ok response).
Qed.

Lemma endSession_isAuthenticated (w : World) :
  isAuthenticated (snd (AuthService.endSession env w)) = isAuthenticated w.
Proof.
  rewrite endSession_eq. cbn zeta. unfold after_reads.
  destruct (retrieveTokens_frame env w) as (_ & _ & _ & _ & _ & _ & _ & Ha).
  destruct (_discovery w), (_config w); cbn; auto.
  destruct (some_read_raises env w); cbn; auto.
  destruct (truthy (secure_store w !! REFRESH_TOKEN)); cbn; auto.
Qed.

(** However it ends, [endSession] cleans up nothing locally: the store, the
    configuration of the services and [isAuthenticated] are as before, and
    at most one request was sent. *)
Theorem endSession_keeps_local_state (w : World) :
  secure_store (snd (AuthService.endSession env w)) = secure_store w
  /\ isAuthenticated (snd (AuthService.endSession env w)) = isAuthenticated w
  /\ _discovery (snd (AuthService.endSession env w)) = _discovery w
  /\ _config (snd (AuthService.endSession env w)) = _config w
  /\ length (net_log (snd (AuthService.endSession env w))) <= S (length (net_log w)).
Proof.
  rewrite endSession_eq. cbn zeta. unfold after_reads.
  destruct (retrieveTokens_frame env w) as (Hs & Hl & _ & _ & _ & Hd & Hc & Ha).
  assert (Hnet : forall ev,
             length (net_log (with_net (snd (AuthTokenService.retrieveTokens env w)) ev))
             <= S (length (net_log w))).
  { intros ev. cbn. rewrite Hl, length_app. cbn. lia. }
  destruct (_discovery w), (_config w); cbn; try (rewrite Hl; auto 10).
  destruct (some_read_raises env w); cbn; [rewrite Hl; auto 10|].
  destruct (truthy (secure_store w !! REFRESH_TOKEN)); cbn; [|rewrite Hl; auto 10].
  repeat split; auto. rewrite Hl, length_app. cbn. lia.
Qed.

(** When discovery and config are set and a refresh token is stored,
    [endSession] sends one form-encoded POST with the client id and that
    refresh token to the end-session endpoint of the discovery document (to
    the URL ["undefined"] when the document has none); it returns on a 2xx
    response and otherwise throws the error that carries the status code,
    the status text and the body. *)
Theorem endSession_posts_refresh_token
    (w : World) (discovery : DiscoveryDocument) (config : KeycloakClientConfig)
    (rt : string) :
  _discovery w = Some discovery ->
  _config w = Some config ->
  some_read_raises env w = false ->
  truthy (secure_store w !! REFRESH_TOKEN) = Some rt ->
  let req :=
    {| req_method := "POST";
       req_url := default "undefined" (endSessionEndpoint discovery);
       req_headers := {[ "Content-Type" := "application/x-www-form-urlencoded" ]};
       req_body := FormBody [("client_id", clientId config); ("refresh_token", rt)] |} in
  net_log (snd (AuthService.endSession env w)) = (net_log w ++ [EvFetch req])%list
  /\ fst (AuthService.endSession env w) =
     match network env (length (net_log w)) req with
     | None => inl (NetworkError req)
     | Some response =>
         if ok response then inr tt
         else inl (Error ("Failed to end session: " +:+ pretty (status response) +:+ ": "
                          +:+ statusText response +:+ " " +:+ body_text response))
     end.
Proof.
  intros Hd Hc Hrd Hrt req. rewrite endSession_eq. cbn zeta.
  rewrite Hd, Hc, Hrd, Hrt. cbn [fst snd]. split; [|reflexivity].
  unfold after_reads. destruct (retrieveTokens_frame env w) as (_ & Hl & _).
  cbn. now rewrite Hl.
Qed.

(** When a precondition of [endSession] fails it throws without sending
    anything, and the error names the first thing missing in the order
    discovery, config, tokens, refresh token. *)
Theorem endSession_precondition_order (w : World) :
  _discovery w = None \/ _config w = None \/ some_read_raises env w = true
  \/ truthy (secure_store w !! REFRESH_TOKEN) = None ->
  fst (AuthService.endSession env w) =
    inl (Error (if negb (isDef (_discovery w)) then "No discovery found"
                else if negb (isDef (_config w)) then "No config found"
                else if some_read_raises env w then "No tokens found"
                else "No refresh token found"))
  /\ net_log (snd (AuthService.endSession env w)) = net_log w.
Proof.
  intros Hpre. rewrite endSession_eq. cbn zeta. unfold after_reads.
  destruct (retrieveTokens_frame env w) as (_ & Hl & _).
  destruct (_discovery w) as [discovery|]; [|now cbn].
  destruct (_config w) as [config|]; [|now cbn]. cbn [isDef negb].
  destruct (some_read_raises env w); [now cbn|].
  destruct (truthy (secure_store w !! REFRESH_TOKEN)) as [rt|]; [|now cbn].
  destruct Hpre as [H|[H|[H|H]]]; discriminate H.
Qed.

(** [requestAccessToken], one case per path through it. *)
Lemma requestAccessToken_eq (authorizationCode codeVerifier : string) (w : World) :
  AuthService.requestAccessToken env authorizationCode codeVerifier w =
  match _discovery w, _config w with
  | Some discovery, Some config =>
      let req := AuthService.exchange_request discovery config authorizationCode
                   codeVerifier in
      (inr match network env (length (net_log w)) req with
           | None => JsNull
           | Some response => default JsNull (body_json response)
           end,
       with_net w (EvFetch req))
  | _, _ => (inr JsNull, w)
  end.
Proof.
  unfold AuthService.requestAccessToken, try_catch.
  destruct (_discovery w) as [discovery|]; [|reflexivity].
  destruct (_config w) as [config|]; [|reflexivity]. cbn [isDef negb].
  unfold bind at 1, fetch. cbn zeta.
  destruct (network env _ _) as [response|]; [|reflexivity].
  unfold bind, json. now destruct (body_json response).
Qed.

(** [requestAccessToken] never touches the store; once discovery and config
    are set it sends exactly one form-encoded POST with the authorization
    code, the PKCE verifier, the client id and the redirect URI to the token
    endpoint, and before that it sends nothing. *)
Theorem requestAccessToken_effects (authorizationCode codeVerifier : string) (w : World) :
  secure_store (snd (AuthService.requestAccessToken env authorizationCode codeVerifier w))
    = secure_store w
  /\ net_log (snd (AuthService.requestAccessToken env authorizationCode codeVerifier w))
     = match _discovery w, _config w with
       | Some discovery, Some config =>
           (net_log w ++
            [EvFetch
               {| req_method := "POST";
                  req_url := default "undefined" (tokenEndpoint discovery);
                  req_headers :=
                    {[ "Content-Type" := "application/x-www-form-urlencoded" ]};
                  req_body :=
                    FormBody [("grant_type", "authorization_code");
                              ("code", authorizationCode);
                              ("code_verifier", codeVerifier);
                              ("client_id", clientId config);
                              ("redirect_uri", signInRedirectUri config)] |}])%list
       | _, _ => net_log w
       end.
Proof.
  rewrite requestAccessToken_eq.
  destruct (_discovery w) as [discovery|]; [|now cbn].
  destruct (_config w) as [config|]; now cbn.
Qed.

Lemma removeTokens_returns (w w' : World) :
  AuthTokenService.removeTokens env w = (inr tt, w') ->
  secure_store w' =
  delete ID_TOKEN (delete REFRESH_TOKEN (delete ACCESS_TOKEN (secure_store w))).
Proof.
  unfold AuthTokenService.removeTokens, bind, SecureStore.deleteItemAsync,
    SecureStore.attempt.
  destruct (store_fault env (store_ops w) _); [discriminate|]. cbn.
  destruct (store_fault env _ _); [discriminate|]. cbn.
  destruct (store_fault env _ _); [discriminate|]. cbn.
  now intros [= <-].
Qed.

(** [logout] never throws, and [isAuthenticated] follows its result: after a
    success it is [false] and the three token keys are gone from the store;
    after a failure it is what it was before the call. *)
Theorem logout_outcome (w : World) :
  match fst (AuthProvider.logout env w) with
  | inr LogoutSuccess =>
      isAuthenticated (snd (AuthProvider.logout env w)) = false
      /\ stored_tokens (snd (AuthProvider.logout env w))
         = {| accessToken := None; refreshToken := None; idToken := None |}
  | inr (LogoutFailure _) =>
      isAuthenticated (snd (AuthProvider.logout env w)) = isAuthenticated w
  | inl _ => False
  end.
Proof.
  destruct (AuthProvider.logout env w) as [r w'] eqn:Hrun. cbn [fst snd].
  unfold AuthProvider.logout, try_catch in Hrun. unfold bind at 1 in Hrun.
  pose proof (endSession_isAuthenticated w) as Ha.
  destruct (AuthService.endSession env w) as [[e|[]] w1]; cbn in Ha.
  { cbn in Hrun. injection Hrun as <- <-. exact Ha. }
  unfold bind at 1 in Hrun.
  pose proof (frames_removeTokens env w1) as (_ & _ & _ & _ & _ & Ha2).
  destruct (AuthTokenService.removeTokens env w1) as [[e|[]] w2] eqn:Hrm; cbn in Ha2, Hrun.
  { injection Hrun as <- <-. congruence. }
  injection Hrun as <- <-. split; [reflexivity|].
  apply removeTokens_returns in Hrm. unfold stored_tokens. cbn. rewrite Hrm.
  unfold ACCESS_TOKEN, REFRESH_TOKEN, ID_TOKEN. f_equal.
  - now rewrite !lookup_delete_ne, lookup_delete_eq by done.
  - now rewrite lookup_delete_ne, lookup_delete_eq by done.
  - now rewrite lookup_delete_eq.
Qed.

(** When discovery and config are set, a refresh token is stored, the
    end-session endpoint answers 2xx and the store refuses no delete,
    [logout] succeeds. *)
Theorem logout_succeeds
    (w : World) (discovery : DiscoveryDocument) (config : KeycloakClientConfig)
    (rt : string) (response : HttpResponse) :
  _discovery w = Some discovery ->
  _config w = Some config ->
  some_read_raises env w = false ->
  truthy (secure_store w !! REFRESH_TOKEN) = Some rt ->
  network env (length (net_log w)) (AuthService.end_session_request discovery config rt)
    = Some response ->
  ok response = true ->
  deletes_ok env ->
  fst (AuthProvider.logout env w) = inr LogoutSuccess.
Proof.
  intros Hd Hc Hrd Hrt Hnet Hok Hdel.
  unfold AuthProvider.logout, try_catch, bind at 1.
  rewrite endSession_eq. cbn zeta. rewrite Hd, Hc, Hrd, Hrt, Hnet, Hok.
  unfold bind at 1.
  destruct (removeTokens_completes env
              (with_net (after_reads env w)
                 (EvFetch (AuthService.end_session_request discovery config rt))) Hdel)
    as (w2 & -> & _).
  reflexivity.
Qed.
End SessionController.

(** ** The coordinator: restoring a session on mount *)
Section Coordinator.
Variable env : Env.
Variable jwtDecode : string -> option JsValue.
Variable before_now : JsValue -> bool.

(** The [try] block of [handleInitAuth], one case per path through it. *)
Lemma restore_session_eq (discovery : DiscoveryDocument) (w : World) :
  AuthProvider.restore_session env jwtDecode before_now discovery w =
  let w1 := after_reads env w in
  if some_read_raises env w
  then (inl (Error "No tokens found in secure storage"), w1)
  else
    match secure_store w !! ACCESS_TOKEN with
    | None => (inl (Error "No access token found in secure storage"), w1)
    | Some token =>
        if negb (isDef (secure_store w !! REFRESH_TOKEN))
        then (inl (Error "No refresh token found in secure storage"), w1)
        else if negb (isDef (secure_store w !! ID_TOKEN))
        then (inl (Error "No id token found in secure storage"), w1)
        else
          match jwtDecode token with
          | None => (inl (Error "Invalid token specified"), w1)
          | Some claims =>
              if negb (isDefJs claims)
              then (inl (TypeError "Cannot read properties of null or undefined, reading exp"),
                    w1)
              else if expired before_now claims then
                match truthy (tokenEndpoint discovery) with
                | None =>
                    (inl (Error "No token endpoint provided, aborting refresh"), w1)
                | Some _ =>
                    match AuthTokenService.refreshTokens env w1 with
                    | (inl e, w2) => (inl e, w2)
                    | (inr _, w2) => (inr tt, with_isAuthenticated w2 true)
                    end
                end
              else (inr tt, with_isAuthenticated w1 true)
          end
    end.
Proof.
  unfold AuthProvider.restore_session, bind at 1, after_reads.
  pose proof (retrieveTokens_result env w) as Hr.
  destruct (AuthTokenService.retrieveTokens env w) as [r w1]. cbn in Hr. subst r.
  cbn zeta. cbn [snd].
  destruct (some_read_raises env w); [reflexivity|]. cbn [isDef negb stored_tokens accessToken
    refreshToken idToken].
  destruct (secure_store w !! ACCESS_TOKEN) as [token|]; [|reflexivity].
  destruct (isDef (secure_store w !! REFRESH_TOKEN)); [|reflexivity].
  destruct (isDef (secure_store w !! ID_TOKEN)); [|reflexivity]. cbn [negb].
  unfold bind at 1, jwt_decode.
  destruct (jwtDecode token) as [claims|]; [|reflexivity]. cbn [ret].
  unfold bind at 1.
  destruct claims as [| | | | | |props]; try reflexivity.
  cbn [get_prop ret isDefJs negb expired].
  unfold bind at 1.
  destruct (isDefJs _ && before_now _); [|reflexivity].
  destruct (truthy (tokenEndpoint discovery)); [|reflexivity]. cbn [isDef negb].
  unfold bind at 1.
  now destruct (AuthTokenService.refreshTokens env w1) as [[e|tr] w2].
Qed.

(** [handleInitAuth] in terms of its [try] block. *)
Lemma handleInitAuth_eq (discovery : DiscoveryDocument) (config : KeycloakClientConfig)
    (p : Provider) :
  AuthProvider.handleInitAuth env jwtDecode before_now discovery config p =
  match AuthProvider.restore_session env jwtDecode before_now discovery
          (initialised discovery config (services p)) with
  | (inr _, w') => (inr tt, {| services := w'; loading := false; error := error p |})
  | (inl _, w') =>
      (inr tt, {| services := with_isAuthenticated w' false; loading := false;
                  error := error p |})
  end.
Proof.
  unfold AuthProvider.handleInitAuth, try_catch.
  change ((AuthService.init discovery config ;;;
           AuthTokenService.init (default "" (tokenEndpoint discovery)) (clientId config))
            (services p))
    with (inr tt : Result unit, initialised discovery config (services p)).
  cbn iota.
  now destruct (AuthProvider.restore_session env jwtDecode before_now discovery _)
    as [[e|[]] w'].
Qed.

Lemma initialised_reads (discovery : DiscoveryDocument) (config : KeycloakClientConfig)
    (w : World) :
  some_read_raises env (initialised discovery config w) = some_read_raises env w
  /\ secure_store (initialised discovery config w) = secure_store w
  /\ net_log (initialised discovery config w) = net_log w
  /\ refresh_calls (initialised discovery config w) = refresh_calls w.
Proof. now cbn. Qed.

Lemma configured_frame (discovery : DiscoveryDocument) (config : KeycloakClientConfig)
    (w w' : World) :
  configured discovery config w -> token_frame w w' -> configured discovery config w'.
Proof.
  unfold configured, token_frame. intros (H1 & H2 & H3 & H4) (_ & K1 & K2 & K3 & K4 & _).
  repeat split; congruence.
Qed.

Lemma configured_isAuthenticated (discovery : DiscoveryDocument)
    (config : KeycloakClientConfig) (w : World) (b : bool) :
  configured discovery config w -> configured discovery config (with_isAuthenticated w b).
Proof. now unfold configured. Qed.

(** [handleInitAuth] never throws and always ends the loading phase: it
    returns with [loading = false], the error state untouched and both
    services initialised from the discovery document and the config, the
    token endpoint being the empty string when the document has none. *)
Theorem handleInitAuth_finishes (discovery : DiscoveryDocument)
    (config : KeycloakClientConfig) (p : Provider) :
  exists p',
    AuthProvider.handleInitAuth env jwtDecode before_now discovery config p = (inr tt, p')
    /\ loading p' = false
    /\ error p' = error p
    /\ _discovery (services p') = Some discovery
    /\ _config (services p') = Some config
    /\ _clientId (services p') = Some (clientId config)
    /\ _tokenEndpoint (services p') = Some (default "" (tokenEndpoint discovery)).
Proof.
  rewrite handleInitAuth_eq.
  set (w0 := initialised discovery config (services p)).
  assert (H0 : configured discovery config w0) by (now unfold configured).
  assert (H1 : configured discovery config (after_reads env w0)).
  { eapply configured_frame; [exact H0|apply frames_retrieveTokens]. }
  assert (Hend : forall r w',
             configured discovery config w' ->
             exists p',
               match (r : Result unit) with
               | inl _ => (inr tt, {| services := with_isAuthenticated w' false;
                                     loading := false; error := error p |})
               | inr _ => (inr tt, {| services := w'; loading := false; error := error p |})
               end = (inr tt : Result unit, p')
               /\ loading p' = false /\ error p' = error p
               /\ configured discovery config (services p')).
  { intros [e|[]] w' Hc; eexists; (split; [reflexivity|]); cbn;
      (split; [reflexivity|]); (split; [reflexivity|]);
      first [exact Hc | now apply configured_isAuthenticated]. }
  enough (exists p',
             match AuthProvider.restore_session env jwtDecode before_now discovery w0 with
             | (inl _, w') => (inr tt, {| services := with_isAuthenticated w' false;
                                          loading := false; error := error p |})
             | (inr _, w') => (inr tt, {| services := w'; loading := false;
                                          error := error p |})
             end = (inr tt : Result unit, p')
             /\ loading p' = false /\ error p' = error p
             /\ configured discovery config (services p')) as (p' & E & Hl & He & Hc).
  { exists p'. unfold configured in Hc. tauto. }
  assert (Hcase : forall (r : Result unit) w',
             AuthProvider.restore_session env jwtDecode before_now discovery w0 = (r, w') ->
             configured discovery config w').
  { intros r w'. rewrite restore_session_eq. cbn zeta.
    destruct (some_read_raises env w0); [now intros [= _ <-]|].
    destruct (secure_store w0 !! ACCESS_TOKEN); [|now intros [= _ <-]].
    destruct (negb _); [now intros [= _ <-]|].
    destruct (negb _); [now intros [= _ <-]|].
    destruct (jwtDecode _) as [claims|]; [|now intros [= _ <-]].
    destruct (negb (isDefJs claims)); [now intros [= _ <-]|].
    destruct (expired _ _).
    2:{ intros [= _ <-]. now apply configured_isAuthenticated. }
    destruct (truthy _); [|now intros [= _ <-]].
    pose proof (frames_refreshTokens env (after_reads env w0)) as Hf.
    destruct (AuthTokenService.refreshTokens env _) as [[e|tr] w2]; cbn in Hf;
      intros [= _ <-]; [|apply configured_isAuthenticated];
      eapply configured_frame; eauto. }
  destruct (AuthProvider.restore_session env jwtDecode before_now discovery w0)
    as [r w'] eqn:Hrun.
  specialize (Hcase r w' eq_refl).
  destruct (Hend r w' Hcase) as (p' & E & H). exists p'. split; [|exact H].
  destruct r as [e|[]]; exact E.
Qed.

(** With the three tokens stored and readable and an access token that
    decodes to claims that are neither [null] nor [undefined] and is not
    expired, [handleInitAuth] authenticates without sending anything and
    without touching the store. *)
Theorem handleInitAuth_valid_session (discovery : DiscoveryDocument)
    (config : KeycloakClientConfig) (p : Provider) (token : string) (claims : JsValue) :
  some_read_raises env (services p) = false ->
  secure_store (services p) !! ACCESS_TOKEN = Some token ->
  is_Some (secure_store (services p) !! REFRESH_TOKEN) ->
  is_Some (secure_store (services p) !! ID_TOKEN) ->
  jwtDecode token = Some claims ->
  isDefJs claims = true ->
  expired before_now claims = false ->
  let p' := snd (AuthProvider.handleInitAuth env jwtDecode before_now discovery config p) in
  isAuthenticated (services p') = true
  /\ net_log (services p') = net_log (services p)
  /\ refresh_calls (services p') = refresh_calls (services p)
  /\ secure_store (services p') = secure_store (services p).
Proof.
  intros Hrd Ha [r Hr] [i Hi] Hdec Hdef Hexp. cbn zeta.
  rewrite handleInitAuth_eq, restore_session_eq. cbn zeta.
  destruct (initialised_reads discovery config (services p)) as (-> & -> & Hn & Hc).
  rewrite Hrd, Ha, Hr, Hi. cbn [isDef negb]. rewrite Hdec, Hdef, Hexp. cbn.
  destruct (after_reads_frame env (initialised discovery config (services p)))
    as (-> & -> & ->).
  auto.
Qed.

(** When the stored access token decodes to [null] or [undefined], reading
    [decodedAccessToken.exp] throws a TypeError: [handleInitAuth] catches it
    and leaves the user unauthenticated, whatever the clock and the other
    tokens say, without sending anything and without touching the store. *)
Theorem handleInitAuth_null_claims (discovery : DiscoveryDocument)
    (config : KeycloakClientConfig) (p : Provider) (token : string) (claims : JsValue) :
  some_read_raises env (services p) = false ->
  secure_store (services p) !! ACCESS_TOKEN = Some token ->
  is_Some (secure_store (services p) !! REFRESH_TOKEN) ->
  is_Some (secure_store (services p) !! ID_TOKEN) ->
  jwtDecode token = Some claims ->
  claims = JsNull \/ claims = JsUndefined ->
  fst (AuthProvider.restore_session env jwtDecode before_now discovery
         (initialised discovery config (services p)))
  = inl (TypeError "Cannot read properties of null or undefined, reading exp")
  /\ let p' := snd (AuthProvider.handleInitAuth env jwtDecode before_now discovery config p) in
     isAuthenticated (services p') = false
     /\ loading p' = false
     /\ net_log (services p') = net_log (services p)
     /\ refresh_calls (services p') = refresh_calls (services p)
     /\ secure_store (services p') = secure_store (services p).
Proof.
  intros Hrd Ha [r Hr] [i Hi] Hdec Hnull. cbn zeta.
  rewrite handleInitAuth_eq, restore_session_eq. cbn zeta.
  destruct (initialised_reads discovery config (services p)) as (-> & -> & Hn & Hc).
  rewrite Hrd, Ha, Hr, Hi. cbn [isDef negb]. rewrite Hdec.
  assert (Hdef : isDefJs claims = false) by (now destruct Hnull as [-> | ->]).
  rewrite Hdef. cbn.
  destruct (after_reads_frame env (initialised discovery config (services p)))
    as (-> & -> & ->).
  repeat split; auto.
Qed.

(** Without a complete, decodable session in the store (a read raises, one
    of the three tokens is missing, or the access token does not decode)
    [handleInitAuth] leaves the user unauthenticated, sends nothing and does
    not touch the store. *)
Theorem handleInitAuth_no_session (discovery : DiscoveryDocument)
    (config : KeycloakClientConfig) (p : Provider) :
  some_read_raises env (services p) = true
  \/ secure_store (services p) !! ACCESS_TOKEN = None
  \/ secure_store (services p) !! REFRESH_TOKEN = None
  \/ secure_store (services p) !! ID_TOKEN = None
  \/ (exists token, secure_store (services p) !! ACCESS_TOKEN = Some token
                    /\ jwtDecode token = None) ->
  let p' := snd (AuthProvider.handleInitAuth env jwtDecode before_now discovery config p) in
  isAuthenticated (services p') = false
  /\ net_log (services p') = net_log (services p)
  /\ refresh_calls (services p') = refresh_calls (services p)
  /\ secure_store (services p') = secure_store (services p).
Proof.
  intros Hno. cbn zeta.
  rewrite handleInitAuth_eq, restore_session_eq. cbn zeta.
  destruct (initialised_reads discovery config (services p)) as (-> & -> & Hn & Hc).
  destruct (after_reads_frame env (initialised discovery config (services p)))
    as (Hl & Hrc & Hs).
  destruct (some_read_raises env (services p)) eqn:Hrd; cbn.
  { rewrite Hl, Hrc, Hs. auto. }
  destruct (secure_store (services p) !! ACCESS_TOKEN) as [token|] eqn:Ha; cbn.
  2:{ rewrite Hl, Hrc, Hs. auto. }
  destruct (secure_store (services p) !! REFRESH_TOKEN) as [r|] eqn:Hr; cbn.
  2:{ rewrite Hl, Hrc, Hs. auto. }
  destruct (secure_store (services p) !! ID_TOKEN) as [i|] eqn:Hi; cbn.
  2:{ rewrite Hl, Hrc, Hs. auto. }
  destruct (jwtDecode token) as [claims|] eqn:Hdec; cbn.
  2:{ rewrite Hl, Hrc, Hs. auto. }
  exfalso. destruct Hno as [H|[H|[H|[H|(t & H & H')]]]]; try discriminate H.
  congruence.
Qed.

(** With a complete session whose access token is expired,
    [handleInitAuth] refreshes: without a token endpoint in the discovery
    document it gives up without sending anything; with one it runs
    [refreshTokens] once, and the user is authenticated exactly when that
    refresh returns. *)
Theorem handleInitAuth_expired (discovery : DiscoveryDocument)
    (config : KeycloakClientConfig) (p : Provider) (token : string) (claims : JsValue) :
  some_read_raises env (services p) = false ->
  secure_store (services p) !! ACCESS_TOKEN = Some token ->
  is_Some (secure_store (services p) !! REFRESH_TOKEN) ->
  is_Some (secure_store (services p) !! ID_TOKEN) ->
  jwtDecode token = Some claims ->
  expired before_now claims = true ->
  let p' := snd (AuthProvider.handleInitAuth env jwtDecode before_now discovery config p) in
  let w1 := after_reads env (initialised discovery config (services p)) in
  match truthy (tokenEndpoint discovery) with
  | None =>
      services p' = with_isAuthenticated w1 false
      /\ net_log (services p') = net_log (services p)
      /\ secure_store (services p') = secure_store (services p)
  | Some _ =>
      services p' =
      with_isAuthenticated (snd (AuthTokenService.refreshTokens env w1))
        (match fst (AuthTokenService.refreshTokens env w1) with
         | inr _ => true
         | inl _ => false
         end)
      /\ refresh_calls (services p') = S (refresh_calls (services p))
  end.
Proof.
  intros Hrd Ha [r Hr] [i Hi] Hdec Hexp. cbn zeta.
  rewrite handleInitAuth_eq, restore_session_eq. cbn zeta.
  destruct (initialised_reads discovery config (services p)) as (-> & -> & Hn & Hc).
  rewrite Hrd, Ha, Hr, Hi. cbn [isDef negb]. rewrite Hdec.
  assert (Hdef : isDefJs claims = true) by (now destruct claims).
  rewrite Hdef, Hexp. cbn [negb].
  destruct (after_reads_frame env (initialised discovery config (services p)))
    as (Hl & Hrc & Hs).
  destruct (truthy (tokenEndpoint discovery)) as [ep|].
  2:{ cbn. rewrite Hl, Hs. auto. }
  destruct (refreshTokens_effects env
              (after_reads env (initialised discovery config (services p)))) as [Hcalls _].
  destruct (AuthTokenService.refreshTokens env _) as [[e|tr] w2]; cbn in Hcalls;
    (split; [reflexivity|]); simpl; rewrite Hcalls, Hrc; reflexivity.
Qed.
End Coordinator.

(** ** The coordinator: login *)
Section Login.
Variable env : Env.

(** What [login] needs before it contacts the token endpoint: a prompt that
    settled with a result of type ["success"] holding a code, and a request
    holding a code verifier. *)
Lemma login_eq (promptAsync : Result (option AuthSessionResult))
    (request : option AuthRequest) (w : World) :
  AuthProvider.login env promptAsync request w =
  match login_inputs promptAsync request with
  | inl e => (inr (LoginFailure e), with_isAuthenticated w false)
  | inr (code, verifier) =>
      let tokens := fst (AuthService.requestAccessToken env code verifier w) in
      let w1 := snd (AuthService.requestAccessToken env code verifier w) in
      match tokens with
      | inl e => (inr (LoginFailure e), with_isAuthenticated w1 false)
      | inr tokens =>
          if negb (isDefJs tokens)
          then (inr (LoginFailure (Error "Tokens not defined")),
                with_isAuthenticated w1 false)
          else
            match AuthTokenService.storeTokens env tokens w1 with
            | (inl e, w2) => (inr (LoginFailure e), with_isAuthenticated w2 false)
            | (inr _, w2) => (inr (LoginSuccess tokens), with_isAuthenticated w2 true)
            end
      end
  end.
Proof.
  unfold AuthProvider.login, login_inputs, try_catch, bind at 1.
  destruct promptAsync as [e|[res|]]; [reflexivity| |now destruct request].
  destruct request as [rq|]; [|reflexivity]. cbn [isDef negb orb fmap option_fmap option_map
    default mbind option_bind from_option id].
  destruct (String.eqb (result_type res) "success"); [|reflexivity]. cbn [negb].
  destruct (params_code res) as [code|]; [|reflexivity]. cbn [isDef negb].
  destruct (codeVerifier rq) as [verifier|]; [|reflexivity]. cbn [isDef negb].
  unfold bind at 1.
  destruct (AuthService.requestAccessToken env code verifier w) as [[e|tokens] w1];
    [reflexivity|]. cbn [fst snd].
  destruct (isDefJs tokens); [|reflexivity]. cbn [negb].
  unfold bind at 1.
  now destruct (AuthTokenService.storeTokens env tokens w1) as [[e|[]] w2].
Qed.

(** [login] never throws, and [isAuthenticated] follows its result: after a
    failure it is [false]; after a success it is [true], the tokens it
    returns hold the three token strings, and the store holds exactly
    these. *)
Theorem login_outcome (promptAsync : Result (option AuthSessionResult))
    (request : option AuthRequest) (w : World) :
  match fst (AuthProvider.login env promptAsync request w) with
  | inr (LoginSuccess tokens) =>
      isAuthenticated (snd (AuthProvider.login env promptAsync request w)) = true
      /\ stored_tokens (snd (AuthProvider.login env promptAsync request w))
         = {| accessToken := string_prop tokens "access_token";
              refreshToken := string_prop tokens "refresh_token";
              idToken := string_prop tokens "id_token" |}
      /\ is_Some (string_prop tokens "access_token")
      /\ is_Some (string_prop tokens "refresh_token")
      /\ is_Some (string_prop tokens "id_token")
  | inr (LoginFailure _) =>
      isAuthenticated (snd (AuthProvider.login env promptAsync request w)) = false
  | inl _ => False
  end.
Proof.
  rewrite login_eq.
  destruct (login_inputs promptAsync request) as [e|[code verifier]]; [reflexivity|].
  cbn zeta.
  destruct (AuthService.requestAccessToken env code verifier w) as [[e|tokens] w1];
    [reflexivity|]. cbn [fst snd].
  destruct (isDefJs tokens); [|reflexivity]. cbn [negb].
  destruct (AuthTokenService.storeTokens env tokens w1) as [[e|[]] w2] eqn:Hsto;
    [reflexivity|]. cbn [fst snd].
  destruct (storeTokens_inv env _ _ _ Hsto) as (a & r & i & Ha & Hr & Hi).
  destruct (storeTokens_written env _ _ _ _ _ _ Ha Hr Hi Hsto) as (Hs & _).
  rewrite Ha, Hr, Hi. split; [reflexivity|]. split; [|now eauto].
  unfold stored_tokens. cbn [secure_store with_isAuthenticated]. rewrite Hs.
  unfold ACCESS_TOKEN, REFRESH_TOKEN, ID_TOKEN. f_equal.
  - now rewrite !lookup_insert_ne, lookup_insert_eq by done.
  - now rewrite lookup_insert_ne, lookup_insert_eq by done.
  - now rewrite lookup_insert_eq.
Qed.

(** Unless the prompt settled with a successful result that holds a code and
    the request holds a code verifier, [login] fails on the spot: nothing is
    sent, and the world is as before but for [isAuthenticated = false]. *)
Theorem login_without_code (promptAsync : Result (option AuthSessionResult))
    (request : option AuthRequest) (w : World) :
  (exists e, promptAsync = inl e)
  \/ promptAsync = inr None
  \/ (exists result, promptAsync = inr (Some result)
                     /\ (result_type result <> "success" \/ params_code result = None))
  \/ request = None
  \/ (exists r, request = Some r /\ codeVerifier r = None) ->
  exists e,
    AuthProvider.login env promptAsync request w
    = (inr (LoginFailure e), with_isAuthenticated w false).
Proof.
  intros H. rewrite login_eq.
  destruct (login_inputs promptAsync request) as [e|[code verifier]] eqn:Hin; [eauto|].
  exfalso. unfold login_inputs in Hin.
  destruct promptAsync as [e|[result|]]; [discriminate| |now destruct request].
  destruct request as [r|]; [|discriminate].
  destruct (String.eqb (result_type result) "success") eqn:Hty; [|discriminate].
  apply String.eqb_eq in Hty. cbn in Hin.
  destruct (params_code result) as [c|] eqn:Hcode; [|discriminate].
  destruct (codeVerifier r) as [v|] eqn:Hv; [|discriminate].
  destruct H as [(e & H)|[H|[(res & H & [H'|H'])|[H|(r' & H & H')]]]];
    try discriminate H; injection H as <-; congruence.
Qed.

(** With a code and a verifier in hand and the services initialised, a token
    endpoint that answers with a JSON body holding the three token strings
    makes [login] succeed, whatever the status of that answer: one exchange
    request is sent, the three tokens are stored and [isAuthenticated]
    becomes [true]. *)
Theorem login_succeeds (promptAsync : Result (option AuthSessionResult))
    (request : option AuthRequest) (w : World) (code verifier : string)
    (discovery : DiscoveryDocument) (config : KeycloakClientConfig)
    (response : HttpResponse) (tokens : JsValue) (a r i : string) :
  promptAsync = inr (Some {| result_type := "success"; params_code := Some code |}) ->
  request = Some {| codeVerifier := Some verifier |} ->
  _discovery w = Some discovery ->
  _config w = Some config ->
  network env (length (net_log w))
    (AuthService.exchange_request discovery config code verifier) = Some response ->
  body_json response = Some tokens ->
  string_prop tokens "access_token" = Some a ->
  string_prop tokens "refresh_token" = Some r ->
  string_prop tokens "id_token" = Some i ->
  writes_ok env ->
  exists w',
    AuthProvider.login env promptAsync request w = (inr (LoginSuccess tokens), w')
    /\ isAuthenticated w' = true
    /\ stored_tokens w' =
       {| accessToken := Some a; refreshToken := Some r; idToken := Some i |}
    /\ net_log w' =
       (net_log w ++
        [EvFetch (AuthService.exchange_request discovery config code verifier)])%list.
Proof.
  intros -> -> Hd Hc Hnet Hjs Ha Hr Hi Hw.
  rewrite login_eq. cbn [login_inputs result_type params_code codeVerifier String.eqb
    Ascii.eqb Bool.eqb negb]. cbn zeta.
  rewrite requestAccessToken_eq, Hd, Hc. cbn zeta. rewrite Hnet, Hjs. cbn [fst snd default
    from_option id].
  assert (Hdef : isDefJs tokens = true).
  { destruct tokens; try discriminate Ha; reflexivity. }
  rewrite Hdef. cbn [negb].
  set (w1 := with_net w _).
  destruct (storeTokens_completes env _ _ _ _ w1 Ha Hr Hi Hw) as (w2 & Hsto).
  rewrite Hsto.
  destruct (storeTokens_written env _ _ _ _ _ _ Ha Hr Hi Hsto) as (Hs & Hl & _).
  eexists. split; [reflexivity|]. split; [reflexivity|]. split.
  - unfold stored_tokens. cbn [secure_store with_isAuthenticated]. rewrite Hs.
    unfold ACCESS_TOKEN, REFRESH_TOKEN, ID_TOKEN. subst w1. cbn [secure_store with_net].
    f_equal.
    + now rewrite !lookup_insert_ne, lookup_insert_eq by done.
    + now rewrite lookup_insert_ne, lookup_insert_eq by done.
    + now rewrite lookup_insert_eq.
  - cbn [net_log with_isAuthenticated]. rewrite Hl. reflexivity.
Qed.

(** When the token endpoint does not answer, or answers with a body that is
    not JSON or holds no [access_token] string (an error body, say),
    [login] fails and the store is untouched. *)
Theorem login_rejected_exchange (promptAsync : Result (option AuthSessionResult))
    (request : option AuthRequest) (w : World) (code verifier : string)
    (discovery : DiscoveryDocument) (config : KeycloakClientConfig) :
  promptAsync = inr (Some {| result_type := "success"; params_code := Some code |}) ->
  request = Some {| codeVerifier := Some verifier |} ->
  _discovery w = Some discovery ->
  _config w = Some config ->
  match network env (length (net_log w))
          (AuthService.exchange_request discovery config code verifier) with
  | None => True
  | Some response =>
      match body_json response with
      | None => True
      | Some tokens => string_prop tokens "access_token" = None
      end
  end ->
  exists e w',
    AuthProvider.login env promptAsync request w = (inr (LoginFailure e), w')
    /\ isAuthenticated w' = false
    /\ secure_store w' = secure_store w.
Proof.
  intros -> -> Hd Hc Hnet.
  rewrite login_eq. cbn [login_inputs result_type params_code codeVerifier String.eqb
    Ascii.eqb Bool.eqb negb]. cbn zeta.
  rewrite requestAccessToken_eq, Hd, Hc. cbn zeta. cbn [fst snd].
  set (w1 := with_net w _).
  destruct (network env _ _) as [response|].
  2:{ cbn. eauto. }
  destruct (body_json response) as [tokens|]; cbn [default from_option id].
  2:{ cbn. eauto. }
  destruct (isDefJs tokens); cbn [negb]; [|cbn; eauto].
  destruct (storeTokens_needs_token env tokens w1 Hnet) as (e & ->).
  cbn. eauto.
Qed.
End Login.

(** ** More on the gateway *)
Section GatewayRequests.
Variable env : Env.

(** Every request through the gateway is first dispatched with the url,
    method and data the caller gave, and with the stored access token as
    bearer token; when no token can be read, or the stored one is empty,
    the headers go out as the caller gave them. *)
Theorem gateway_attaches_bearer (fuel : nat) (config : AxiosRequestConfig) (w : World) :
  2 <= fuel ->
  exists r w' first rest,
    AuthRestService.axiosInstance env fuel config w = Some (r, w')
    /\ axios_sent (net_log w') = (axios_sent (net_log w) ++ first :: rest)%list
    /\ url first = url config
    /\ method first = method config
    /\ data first = data config
    /\ headers first =
       match truthy (if some_read_raises env w then None
                     else secure_store w !! ACCESS_TOKEN) with
       | Some token => <["Authorization" := "Bearer " +:+ token]> (headers config)
       | None => headers config
       end.
Proof.
  intros Hfuel. destruct fuel as [|[|fuel]]; [lia|lia|].
  rewrite axiosInstance_eq. cbn zeta.
  destruct (after_first_attempt_effects env config w) as (Hsent2 & _).
  destruct (with_bearer_fields config (seen_token env w)) as (_ & Hu & Hm & Hd).
  assert (Hh : headers (first_attempt env config w) =
               match truthy (if some_read_raises env w then None
                             else secure_store w !! ACCESS_TOKEN) with
               | Some token => <["Authorization" := "Bearer " +:+ token]> (headers config)
               | None => headers config
               end).
  { unfold first_attempt, AuthRestService.with_bearer, seen_token.
    now destruct (truthy _). }
  assert (Hone : forall r0 : Result HttpResponse,
             exists r w' first rest,
               Some (r0, after_first_attempt env config w) = Some (r, w')
               /\ axios_sent (net_log w') = (axios_sent (net_log w) ++ first :: rest)%list
               /\ url first = url config /\ method first = method config
               /\ data first = data config
               /\ headers first =
                  match truthy (if some_read_raises env w then None
                                else secure_store w !! ACCESS_TOKEN) with
                  | Some token => <["Authorization" := "Bearer " +:+ token]> (headers config)
                  | None => headers config
                  end).
  { intros r0. exists r0, (after_first_attempt env config w), (first_attempt env config w), [].
    auto 10. }
  destruct (network env _ _) as [response|]; [|apply Hone].
  destruct (ok response); [apply Hone|].
  destruct ((status response =? 401)%N && negb (_retry config)); [|apply Hone].
  destruct (refreshTokens_effects env (after_first_attempt env config w)) as [_ Hsent3].
  destruct (AuthTokenService.refreshTokens env _) as [[e|tr] w3]; cbn [snd] in Hsent3.
  { exists (inl e), w3, (first_attempt env config w), [].
    split; [reflexivity|]. split; [now rewrite Hsent3|]. auto. }
  set (c2 := AuthRestService.with_bearer _ (seen_token env w3)).
  assert (Hre : _retry c2 = true).
  { subst c2. now destruct (with_bearer_fields
                              (set_retry (first_attempt env config w) true)
                              (seen_token env w3)) as (-> & _). }
  rewrite (axiosInstance_retried env fuel c2 (after_reads env w3) Hre).
  destruct (after_first_attempt_effects env c2 (after_reads env w3)) as (Hsent5 & _).
  destruct (after_reads_frame env w3) as (Hlog4 & _).
  eexists _, _, (first_attempt env config w), [_].
  split; [reflexivity|]. split; [|auto].
  rewrite Hsent5, Hlog4, Hsent3, Hsent2, <- app_assoc. reflexivity.
Qed.

(** The gateway refreshes on a 401 only: when the first attempt gets no
    response, or one whose status is not 401, the request is dispatched
    once, [refreshTokens] is not invoked and the store is untouched. *)
Theorem gateway_refreshes_only_on_401 (fuel : nat) (config : AxiosRequestConfig)
    (w : World) :
  1 <= fuel ->
  (forall response,
      network env (length (net_log w))
        (AuthRestService.net_request (first_attempt env config w)) = Some response ->
      status response <> 401%N) ->
  exists r w',
    AuthRestService.axiosInstance env fuel config w = Some (r, w')
    /\ refresh_calls w' = refresh_calls w
    /\ secure_store w' = secure_store w
    /\ axios_sent (net_log w') = (axios_sent (net_log w) ++ [first_attempt env config w])%list.
Proof.
  intros Hfuel Hno. destruct fuel as [|fuel]; [lia|].
  rewrite axiosInstance_eq. cbn zeta.
  destruct (after_first_attempt_effects env config w) as (Hsent2 & Hrc2 & _).
  assert (Hs2 : secure_store (after_first_attempt env config w) = secure_store w).
  { unfold after_first_attempt. cbn. now destruct (after_reads_frame env w) as (_ & _ & ->). }
  destruct (network env _ _) as [response|]; [|eauto 10].
  destruct (ok response); [eauto 10|].
  specialize (Hno response eq_refl). apply N.eqb_neq in Hno. rewrite Hno. cbn.
  eauto 10.
Qed.
End GatewayRequests.

(** ** Instances of the properties above *)

Lemma storeTokens_needs_access_token_witness :
  exists e,
    AuthTokenService.storeTokens (always invalid_grant)
      (JsObject [("error", JsString "invalid_grant")]) (fresh_world session_store)
    = (inl e, fresh_world session_store)
    /\ (e = invalid_value \/ exists m, e = TypeError m).
Proof.
  apply (storeTokens_needs_access_token (always invalid_grant)
           (JsObject [("error", JsString "invalid_grant")]) (fresh_world session_store)).
  reflexivity.
Defined.

Lemma storeTokens_partial_write_witness :
  exists w',
    AuthTokenService.storeTokens (always access_only)
      (JsObject [("access_token", JsString "a2")]) (fresh_world session_store)
    = (inl invalid_value, w')
    /\ secure_store w' = <[ACCESS_TOKEN := "a2"]> session_store.
Proof.
  apply (storeTokens_partial_write (always access_only)
           (JsObject [("access_token", JsString "a2")]) "a2" (fresh_world session_store));
    reflexivity.
Defined.

Lemma refreshTokens_posts_refresh_token_witness :
  net_log (snd (AuthTokenService.refreshTokens (always new_tokens)
                  (running_world session_store)))
  = [EvFetch {| req_method := "POST"; req_url := "https://kc/token";
                req_headers := {[ "Content-Type" := "application/x-www-form-urlencoded" ]};
                req_body := FormBody [("grant_type", "refresh_token"); ("client_id", "app");
                                      ("refresh_token", "r1")] |}].
Proof.
  apply (refreshTokens_posts_refresh_token (always new_tokens)
           (running_world session_store) "r1" "app" "https://kc/token");
    vm_compute; reflexivity.
Defined.

Lemma init_enables_refreshTokens_witness :
  ~ NotInitializedError
      (Error (AuthTokenService.refresh_failed_message invalid_grant
                (body_text invalid_grant))).
Proof.
  apply (init_enables_refreshTokens (always invalid_grant) "https://kc/token" "app"
           (fresh_world session_store)
           (snd (AuthTokenService.refreshTokens (always invalid_grant)
                   (snd (AuthTokenService.init "https://kc/token" "app"
                           (fresh_world session_store)))))).
  - discriminate.
  - discriminate.
  - vm_compute. reflexivity.
Defined.

Lemma endSession_posts_refresh_token_witness :
  net_log (snd (AuthService.endSession (always api_data) (running_world session_store)))
  = [EvFetch {| req_method := "POST"; req_url := "https://kc/logout";
                req_headers := {[ "Content-Type" := "application/x-www-form-urlencoded" ]};
                req_body := FormBody [("client_id", "app"); ("refresh_token", "r1")] |}]
  /\ fst (AuthService.endSession (always api_data) (running_world session_store)) = inr tt.
Proof.
  apply (endSession_posts_refresh_token (always api_data) (running_world session_store)
           kc_discovery kc_config "r1"); vm_compute; reflexivity.
Defined.

Lemma endSession_precondition_order_witness :
  fst (AuthService.endSession (always api_data) (fresh_world ∅))
    = inl (Error "No discovery found")
  /\ net_log (snd (AuthService.endSession (always api_data) (fresh_world ∅))) = [].
Proof.
  apply (endSession_precondition_order (always api_data) (fresh_world ∅)).
  left. reflexivity.
Defined.

Lemma logout_succeeds_witness :
  fst (AuthProvider.logout (always api_data) (running_world session_store))
  = inr LogoutSuccess.
Proof.
  apply (logout_succeeds (always api_data) (running_world session_store)
           kc_discovery kc_config "r1" api_data);
    vm_compute; reflexivity.
Defined.

Lemma handleInitAuth_valid_session_witness :
  isAuthenticated
    (services (snd (AuthProvider.handleInitAuth (always new_tokens) toy_jwtDecode
                      (before 500) kc_discovery kc_config (mounting session_store))))
  = true
  /\ net_log
       (services (snd (AuthProvider.handleInitAuth (always new_tokens) toy_jwtDecode
                         (before 500) kc_discovery kc_config
                         (mounting session_store))))
     = [].
Proof.
  destruct (handleInitAuth_valid_session (always new_tokens) toy_jwtDecode (before 500)
              kc_discovery kc_config (mounting session_store) "a1"
              (JsObject [("exp", JsNumber 1000)]))
    as (H1 & H2 & _).
  - vm_compute. reflexivity.
  - vm_compute. reflexivity.
  - eexists. vm_compute. reflexivity.
  - eexists. vm_compute. reflexivity.
  - vm_compute. reflexivity.
  - reflexivity.
  - vm_compute. reflexivity.
  - split; [exact H1|exact H2].
Defined.

Lemma handleInitAuth_null_claims_witness :
  isAuthenticated
    (services (snd (AuthProvider.handleInitAuth (always new_tokens) (fun _ => Some JsNull)
                      (before 500) kc_discovery kc_config (mounting session_store))))
  = false
  /\ net_log
       (services (snd (AuthProvider.handleInitAuth (always new_tokens) (fun _ => Some JsNull)
                         (before 500) kc_discovery kc_config
                         (mounting session_store))))
     = [].
Proof.
  destruct (handleInitAuth_null_claims (always new_tokens) (fun _ => Some JsNull)
              (before 500) kc_discovery kc_config (mounting session_store) "a1" JsNull)
    as (_ & H1 & _ & H2 & _).
  - vm_compute. reflexivity.
  - vm_compute. reflexivity.
  - eexists. vm_compute. reflexivity.
  - eexists. vm_compute. reflexivity.
  - reflexivity.
  - left. reflexivity.
  - split; [exact H1|exact H2].
Defined.

Lemma handleInitAuth_no_session_witness :
  isAuthenticated
    (services (snd (AuthProvider.handleInitAuth (always new_tokens) toy_jwtDecode
                      (before 500) kc_discovery kc_config (mounting ∅))))
  = false.
Proof.
  destruct (handleInitAuth_no_session (always new_tokens) toy_jwtDecode (before 500)
              kc_discovery kc_config (mounting ∅)) as (H1 & _).
  - right. left. reflexivity.
  - exact H1.
Defined.

Lemma handleInitAuth_expired_witness :
  refresh_calls
    (services (snd (AuthProvider.handleInitAuth (always new_tokens) toy_jwtDecode
                      (before 2000) kc_discovery kc_config (mounting session_store))))
  = 1.
Proof.
  pose proof (handleInitAuth_expired (always new_tokens) toy_jwtDecode (before 2000)
                kc_discovery kc_config (mounting session_store) "a1"
                (JsObject [("exp", JsNumber 1000)])) as H.
  cbv zeta in H. change (truthy (tokenEndpoint kc_discovery)) with (Some "https://kc/token") in H.
  destruct H as (_ & H).
  - vm_compute. reflexivity.
  - vm_compute. reflexivity.
  - eexists. vm_compute. reflexivity.
  - eexists. vm_compute. reflexivity.
  - vm_compute. reflexivity.
  - vm_compute. reflexivity.
  - exact H.
Defined.

Lemma login_without_code_witness :
  exists e,
    AuthProvider.login (always new_tokens) prompt_cancel pkce_request logged_out_world
    = (inr (LoginFailure e), with_isAuthenticated logged_out_world false).
Proof.
  apply (login_without_code (always new_tokens) prompt_cancel pkce_request logged_out_world).
  right. right. left. eexists. split; [reflexivity|]. left. discriminate.
Defined.

Lemma login_succeeds_witness :
  exists w',
    AuthProvider.login (always new_tokens) prompt_success pkce_request logged_out_world
    = (inr (LoginSuccess (JsObject [("access_token", JsString "a2");
                                    ("refresh_token", JsString "r2");
                                    ("id_token", JsString "i2")])), w')
    /\ isAuthenticated w' = true
    /\ stored_tokens w' =
       {| accessToken := Some "a2"; refreshToken := Some "r2"; idToken := Some "i2" |}.
Proof.
  destruct (login_succeeds (always new_tokens) prompt_success pkce_request logged_out_world
              "code" "verifier" kc_discovery kc_config new_tokens
              (JsObject [("access_token", JsString "a2"); ("refresh_token", JsString "r2");
                         ("id_token", JsString "i2")]) "a2" "r2" "i2")
    as (w' & H1 & H2 & H3 & _).
  - reflexivity.
  - reflexivity.
  - reflexivity.
  - reflexivity.
  - reflexivity.
  - reflexivity.
  - reflexivity.
  - reflexivity.
  - reflexivity.
  - intros n k v. reflexivity.
  - exists w'. auto.
Defined.

Lemma login_rejected_exchange_witness :
  exists e w',
    AuthProvider.login (always invalid_grant) prompt_success pkce_request logged_out_world
    = (inr (LoginFailure e), w')
    /\ isAuthenticated w' = false
    /\ secure_store w' = secure_store logged_out_world.
Proof.
  apply (login_rejected_exchange (always invalid_grant) prompt_success pkce_request
           logged_out_world "code" "verifier" kc_discovery kc_config); reflexivity.
Defined.

Lemma gateway_attaches_bearer_witness :
  exists r w' first rest,
    AuthRestService.axiosInstance (always api_data) 2 get_data
      (running_world session_store) = Some (r, w')
    /\ axios_sent (net_log w') = first :: rest
    /\ headers first = <["Authorization" := "Bearer a1"]> ∅.
Proof.
  destruct (gateway_attaches_bearer (always api_data) 2 get_data
              (running_world session_store))
    as (r & w' & first & rest & H1 & H2 & _ & _ & _ & H3); [lia|].
  exists r, w', first, rest. split; [exact H1|]. split; [exact H2|exact H3].
Defined.

Lemma gateway_refreshes_only_on_401_witness :
  exists r w',
    AuthRestService.axiosInstance (always invalid_grant) 1 get_data
      (running_world session_store) = Some (r, w')
    /\ refresh_calls w' = 0
    /\ secure_store w' = session_store.
Proof.
  destruct (gateway_refreshes_only_on_401 (always invalid_grant) 1 get_data
              (running_world session_store))
    as (r & w' & H1 & H2 & H3 & _).
  - lia.
  - intros response [= <-]. discriminate.
  - exists r, w'. auto.
Defined.
